(** * The plugin host's out-of-process plugin scanner

    A shallow embedding of [CustomPluginScanner] (the host application's
    [KnownPluginList::CustomScanner]) and of the parts of the host around it:
    the settings store that carries the scan mode, the worker handle
    ([Superprocess]) and the thread that services the worker connection.

    The scanner runs on two threads. The caller thread executes
    [findPluginTypesFor]; the connection thread executes the two handlers of
    [Superprocess]. The embedding is sequential: whatever other threads do
    while a call is running is given to the call as a [Schedule], a record of
    the events that happen at each place where the call can be overtaken. *)

From Stdlib Require Import ZArith NArith List Ascii String Bool Lia.
From Stdlib.Strings Require Import Byte.
From stdpp Require Import base option list gmap strings.
Import ListNotations.
Local Open Scope string_scope.
Local Open Scope list_scope.
Local Set Warnings "-register-all".

(** ** Framework types *)

(** [MemoryBlock]: a resizable block of raw bytes. *)
Definition MemoryBlock : Type := list byte.

(** [XmlElement]: a tag with attributes and child elements. *)
Inductive XmlElement : Type :=
| XmlNode (tagName : string) (attributes : list (string * string))
          (childElements : list XmlElement).

(** [XmlElement::getChildIterator]: the child elements, in document order. *)
Definition getChildIterator (xml : XmlElement) : list XmlElement :=
  match xml with XmlNode _ _ cs => cs end.

(** The framework routines that [findPluginTypesFor] and the handlers call and
    whose bodies are not part of the host's sources. They are parameters of
    the development.
    - [PluginDescription] is the descriptor type;
    - [MemoryBlock_toString] is [MemoryBlock::toString];
    - [parseXML] returns no element ([nullptr]) for text that does not parse;
    - [loadFromXml] is [PluginDescription::loadFromXml] on a fresh
      descriptor: [Some desc] when it returns [true], leaving [desc] loaded,
      and [None] when it returns [false]. *)
Class Framework : Type := {
  PluginDescription : Type;
  MemoryBlock_toString : MemoryBlock -> string;
  parseXML : string -> option XmlElement;
  loadFromXml : XmlElement -> option PluginDescription
}.

(** [AudioPluginFormat]: the two virtual methods the scanner uses.
    [findAllTypesForFile] receives the caller's array and returns it as the
    format leaves it. *)
Record AudioPluginFormat `{Framework} : Type := {
  getName : string;
  findAllTypesForFile : list PluginDescription -> string -> list PluginDescription
}.

(** ** The settings store *)

Definition scanModeKey : string := "pluginScanMode".

(** Modelled from the spec: [PropertiesFile] and [PropertySet::getIntValue]
    are not among the host's sources. The store is "a persisted key-value
    settings store supporting get/set of an integer mode flag"; a key that was
    never set reads as 0. *)
Definition getIntValue (file : gmap string Z) (key : string) : Z :=
  match file !! key with
  | Some v => v
  | None => 0%Z
  end.

(** Modelled from the spec: [PropertySet::setValue], as above. *)
Definition setValue (file : gmap string Z) (key : string) (v : Z) : gmap string Z :=
  <[key := v]> file.

(** ** The request encoding *)

(** The byte with value [n mod 256]. *)
Definition byteOfN (n : N) : byte :=
  match Byte.of_N (n mod 256) with
  | Some b => b
  | None => x00
  end.

(** Modelled from the spec: the "[len:uint32]" field of the wire format. The
    value wraps at [2^32]. The spec does not give the byte order; the four
    bytes are written least significant first, as the framework writes its
    integers, and nothing below depends on the order. *)
Definition uint32 (n : N) : list byte :=
  let m := (n mod 4294967296)%N in
  [byteOfN m; byteOfN (m / 256); byteOfN (m / 65536); byteOfN (m / 16777216)].

(** [String::toRawUTF8]: a [String] is held as its UTF-8 code units. *)
Definition toRawUTF8 (text : string) : list byte := list_byte_of_string text.

(** Modelled from the spec: [OutputStream::writeString] is not among the
    host's sources. The wire format of the worker protocol is
    "[len:uint32][... UTF-8 bytes]": a string goes out as the number of its
    UTF-8 bytes followed by those bytes. The stream appends to its block. *)
Definition writeString (stream : MemoryBlock) (text : string) : MemoryBlock :=
  stream ++ uint32 (N.of_nat (length (toRawUTF8 text))) ++ toRawUTF8 text.

(** ** The scanner and its host *)

(** One [Superprocess] object, named by the order in which it was made. *)
Record Superprocess : Type := { workerId : nat }.

(** What the scanner does to worker handles, in the order it does it. *)
Inductive WorkerOp : Type :=
| Launch (id : nat)
| Send (id : nat) (block : MemoryBlock)
| Teardown (id : nat).

(** The data members of [CustomPluginScanner] (the mutex and the condition
    variable are replaced by the [Schedule] below), followed by the part of
    the host the scanner reads or acts on:
    - [userSettings] is [getAppProperties().getUserSettings()], which may be
      null;
    - [exitRequested] is what the inherited [shouldExit()] returns;
    - [workerLog] records the handle operations performed so far, oldest
      first, and [launched] counts the handles made. *)
Record State : Type := {
  superprocess : option Superprocess;
  pluginDescription : option XmlElement;
  gotResponse : bool;
  connectionLost : bool;
  scanInProcess : bool;
  userSettings : option (gmap string Z);
  exitRequested : bool;
  workerLog : list WorkerOp;
  launched : nat
}.

Definition set_superprocess (v : option Superprocess) (st : State) : State :=
  {| superprocess := v; pluginDescription := pluginDescription st;
     gotResponse := gotResponse st; connectionLost := connectionLost st;
     scanInProcess := scanInProcess st; userSettings := userSettings st;
     exitRequested := exitRequested st; workerLog := workerLog st;
     launched := launched st |}.

Definition set_pluginDescription (v : option XmlElement) (st : State) : State :=
  {| superprocess := superprocess st; pluginDescription := v;
     gotResponse := gotResponse st; connectionLost := connectionLost st;
     scanInProcess := scanInProcess st; userSettings := userSettings st;
     exitRequested := exitRequested st; workerLog := workerLog st;
     launched := launched st |}.

Definition set_gotResponse (v : bool) (st : State) : State :=
  {| superprocess := superprocess st; pluginDescription := pluginDescription st;
     gotResponse := v; connectionLost := connectionLost st;
     scanInProcess := scanInProcess st; userSettings := userSettings st;
     exitRequested := exitRequested st; workerLog := workerLog st;
     launched := launched st |}.

Definition set_connectionLost (v : bool) (st : State) : State :=
  {| superprocess := superprocess st; pluginDescription := pluginDescription st;
     gotResponse := gotResponse st; connectionLost := v;
     scanInProcess := scanInProcess st; userSettings := userSettings st;
     exitRequested := exitRequested st; workerLog := workerLog st;
     launched := launched st |}.

Definition set_scanInProcess (v : bool) (st : State) : State :=
  {| superprocess := superprocess st; pluginDescription := pluginDescription st;
     gotResponse := gotResponse st; connectionLost := connectionLost st;
     scanInProcess := v; userSettings := userSettings st;
     exitRequested := exitRequested st; workerLog := workerLog st;
     launched := launched st |}.

Definition set_userSettings (v : option (gmap string Z)) (st : State) : State :=
  {| superprocess := superprocess st; pluginDescription := pluginDescription st;
     gotResponse := gotResponse st; connectionLost := connectionLost st;
     scanInProcess := scanInProcess st; userSettings := v;
     exitRequested := exitRequested st; workerLog := workerLog st;
     launched := launched st |}.

Definition set_exitRequested (v : bool) (st : State) : State :=
  {| superprocess := superprocess st; pluginDescription := pluginDescription st;
     gotResponse := gotResponse st; connectionLost := connectionLost st;
     scanInProcess := scanInProcess st; userSettings := userSettings st;
     exitRequested := v; workerLog := workerLog st;
     launched := launched st |}.

(** Appends one operation to the log; [fresh] says whether a handle was made. *)
Definition logOp (op : WorkerOp) (fresh : bool) (st : State) : State :=
  {| superprocess := superprocess st; pluginDescription := pluginDescription st;
     gotResponse := gotResponse st; connectionLost := connectionLost st;
     scanInProcess := scanInProcess st; userSettings := userSettings st;
     exitRequested := exitRequested st; workerLog := workerLog st ++ [op];
     launched := if fresh then S (launched st) else launched st |}.

(** Modelled from the spec: [shouldExit()] is inherited from
    [KnownPluginList::CustomScanner], which is not among the host's sources.
    It is the "host-wide should the application exit / should this scan be
    abandoned check": it answers whether the host has asked running scans to
    stop, a request the host does not take back while a scan is running. *)
Definition shouldExit (st : State) : bool := exitRequested st.

(** [changeListenerCallback]: re-reads the mode when there is a settings file. *)
Definition changeListenerCallback (st : State) : State :=
  match userSettings st with
  | Some file => set_scanInProcess (getIntValue file scanModeKey =? 0)%Z st
  | None => st
  end.

(** The member initialisers of a scanner made in a host with these settings,
    before any request to exit and before any handle. *)
Definition initialScanner (settings : option (gmap string Z)) : State :=
  {| superprocess := None; pluginDescription := None;
     gotResponse := false; connectionLost := false;
     scanInProcess := true; userSettings := settings;
     exitRequested := false; workerLog := []; launched := 0 |}.

(** The constructor: the member initialisers, then [changeListenerCallback]. *)
Definition newScanner (settings : option (gmap string Z)) : State :=
  changeListenerCallback (initialScanner settings).

(** [superprocess = std::make_unique<Superprocess> (owner)]: a new handle. *)
Definition makeSuperprocess (st : State) : State :=
  set_superprocess (Some {| workerId := launched st |})
                   (logOp (Launch (launched st)) true st).

(** [superprocess = nullptr]: destroys the handle the slot holds, if any. *)
Definition resetSuperprocess (st : State) : State :=
  match superprocess st with
  | Some sp => set_superprocess None (logOp (Teardown (workerId sp)) false st)
  | None => st
  end.

(** [scanFinished]. *)
Definition scanFinished (st : State) : State := resetSuperprocess st.

(** ** What the other threads do *)

(** Events raised by the host, on threads that do not take the scanner's
    mutex:
    - [ExitRequested]: the host asks running scans to stop, after which
      [shouldExit()] answers [true];
    - [SetValue key v]: the settings file's [setValue (key, v)], as the
      scan-mode box does with [scanModeKey];
    - [ChangeMessage]: the settings file's change message reaches the scanner,
      which runs [changeListenerCallback]. *)
Inductive HostEvent : Type :=
| ExitRequested
| SetValue (key : string) (v : Z)
| ChangeMessage.

(** Calls made by the connection thread on the live [Superprocess]; both
    handlers take the scanner's mutex. *)
Inductive WorkerEvent : Type :=
| MessageFromWorker (mb : MemoryBlock)
| ConnectionLost.

Inductive Event : Type :=
| FromHost (e : HostEvent)
| FromWorker (e : WorkerEvent).

(** What surrounds one call of [findPluginTypesFor]:
    - [sendOk] is what [sendMessageToWorker] returns;
    - [beforeLock] happens after the send and before the call takes the mutex;
    - [whileWaiting] has one entry per stretch of time that the wait spends
      with the mutex released, each followed by a test of the wake predicate;
    - [afterWake] happens between the last test of the wake predicate and the
      tests that follow the loop. The mutex is held then, so only host events
      can happen. *)
Record Schedule : Type := {
  sendOk : bool;
  beforeLock : list Event;
  whileWaiting : list (list Event);
  afterWake : list HostEvent
}.

(** ** The scan-mode box

    [CustomPluginListComponent] adds a box with the two scan modes to the
    plug-in list. *)

(** The loop of its constructor over the mode names: each goes into
    [validationModeBox] under the next unused id. The entries are in the
    order of their indices. *)
Fixpoint addModes (modes : list string) (unusedId : Z)
                  (items : list (string * Z)) : list (string * Z) :=
  match modes with
  | [] => items
  | mode :: rest => addModes rest (unusedId + 1) (items ++ [(mode, unusedId)])
  end.

Definition validationModeBox : list (string * Z) :=
  addModes ["In-process"; "Out-of-process"] 1%Z [].

(** [validationModeBox.onChange]: the selected index is stored under the
    scan-mode key. *)
Definition validationModeBox_onChange (selectedItemIndex : Z) : HostEvent :=
  SetValue scanModeKey selectedItemIndex.

Section Scanner.
Context `{Framework}.

(** [Superprocess::handleMessageFromWorker]. *)
Definition handleMessageFromWorker (mb : MemoryBlock) (st : State) : State :=
  let xml := parseXML (MemoryBlock_toString mb) in
  set_gotResponse true (set_pluginDescription xml st).

(** [Superprocess::handleConnectionLost]. *)
Definition handleConnectionLost (st : State) : State :=
  set_connectionLost true (set_gotResponse true (set_pluginDescription None st)).

(** What a host event does. A value can only be set in a settings file that
    exists; the change message runs the callback, which tests for the file
    itself. *)
Definition hostEvent (e : HostEvent) (st : State) : State :=
  match e with
  | ExitRequested => set_exitRequested true st
  | SetValue key v =>
      match userSettings st with
      | Some file => set_userSettings (Some (setValue file key v)) st
      | None => st
      end
  | ChangeMessage => changeListenerCallback st
  end.

(** The handlers are members of the [Superprocess] object: without a live
    handle there is nobody to call. *)
Definition workerEvent (e : WorkerEvent) (st : State) : State :=
  match superprocess st with
  | Some _ =>
      match e with
      | MessageFromWorker mb => handleMessageFromWorker mb st
      | ConnectionLost => handleConnectionLost st
      end
  | None => st
  end.

(** One event, and a run of events in the order they happen. *)
Definition deliver (st : State) (e : Event) : State :=
  match e with
  | FromHost e => hostEvent e st
  | FromWorker e => workerEvent e st
  end.

Definition deliverAll (st : State) (evs : list Event) : State :=
  fold_left deliver evs st.

(** The predicate given to [condvar.wait_for]. *)
Definition wakePredicate (st : State) : bool :=
  gotResponse st || shouldExit st.

(** The [for (;;)] loop around [condvar.wait_for (lock, 50ms, predicate)]:
    the predicate is tested first and after every stretch of waiting, and the
    loop is left when it holds. The result is [(true, st)] when the loop is
    left in [st], and [(false, st)] when the call is still waiting in [st]
    after everything in the schedule has happened. *)
Fixpoint waitForResponse (st : State) (intervals : list (list Event))
  : bool * State :=
  if wakePredicate st then (true, st)
  else match intervals with
       | [] => (false, st)
       | evs :: rest => waitForResponse (deliverAll st evs) rest
       end.

(** The loop over the reply's children: each child that loads is added. *)
Definition addDescriptions (result : list PluginDescription)
                           (items : list XmlElement) : list PluginDescription :=
  fold_left (fun res item =>
               match loadFromXml item with
               | Some desc => res ++ [desc]
               | None => res
               end) items result.

(** [superprocess->sendMessageToWorker (block)]. *)
Definition sendMessageToWorker (block : MemoryBlock) (env : Schedule)
                               (st : State) : bool * State :=
  match superprocess st with
  | Some sp => (sendOk env, logOp (Send (workerId sp) block) false st)
  | None => (false, st)
  end.

(** How a call ends: it returns a flag and leaves the caller's array and the
    scanner in some state, or it is still inside the wait loop. *)
Inductive Outcome : Type :=
| Returned (ok : bool) (result : list PluginDescription) (st : State)
| Blocked (st : State).

(** The request of one call: both strings written to a fresh block. *)
Definition requestBlock (format : AudioPluginFormat)
                        (fileOrIdentifier : string) : MemoryBlock :=
  let stream := writeString [] (getName format) in
  writeString stream fileOrIdentifier.

(** The state in which the wait starts: the two assignments made under the
    lock after a successful send. *)
Definition clearResponse (st : State) : State :=
  set_pluginDescription None (set_gotResponse false st).

(** What follows the wait loop. *)
Definition afterWait (result : list PluginDescription) (st : State) : Outcome :=
  if shouldExit st then Returned true result (resetSuperprocess st)
  else if connectionLost st then Returned false result (resetSuperprocess st)
  else match pluginDescription st with
       | Some xml =>
           Returned true (addDescriptions result (getChildIterator xml)) st
       | None => Returned true result st
       end.

(** The block that makes a handle when the slot is empty. *)
Definition ensureSuperprocess (st : State) : State :=
  match superprocess st with
  | None => set_connectionLost false (makeSuperprocess st)
  | Some _ => st
  end.

(** [CustomPluginScanner::findPluginTypesFor]. *)
Definition findPluginTypesFor (format : AudioPluginFormat)
                              (result : list PluginDescription)
                              (fileOrIdentifier : string)
                              (env : Schedule) (st : State) : Outcome :=
  if scanInProcess st then
    let st := resetSuperprocess st in
    Returned true (findAllTypesForFile format result fileOrIdentifier) st
  else
    let st := ensureSuperprocess st in
    let block := requestBlock format fileOrIdentifier in
    let (sent, st) := sendMessageToWorker block env st in
    if sent then
      let st := deliverAll st (beforeLock env) in
      let st := clearResponse st in
      match waitForResponse st (whileWaiting env) with
      | (true, st) =>
          afterWait result (deliverAll st (map FromHost (afterWake env)))
      | (false, st) => Blocked st
      end
    else
      Returned false result (resetSuperprocess st).

(** ** Sequences of calls *)

(** What the owner of the scanner (the plugin list) does with it, with what
    happens on other threads between two calls. *)
Inductive Call : Type :=
| CallFindPluginTypesFor (format : AudioPluginFormat)
                         (result : list PluginDescription)
                         (fileOrIdentifier : string) (env : Schedule)
| CallScanFinished
| Between (evs : list Event).

Definition stateOf (o : Outcome) : State :=
  match o with
  | Returned _ _ st => st
  | Blocked st => st
  end.

(** Runs the calls in order. A call that does not return ends the run: the
    caller never gets to make the next one. *)
Fixpoint runCalls (calls : list Call) (st : State) : State :=
  match calls with
  | [] => st
  | CallFindPluginTypesFor format result file env :: rest =>
      match findPluginTypesFor format result file env st with
      | Returned _ _ st' => runCalls rest st'
      | Blocked st' => st'
      end
  | CallScanFinished :: rest => runCalls rest (scanFinished st)
  | Between evs :: rest => runCalls rest (deliverAll st evs)
  end.

End Scanner.

(** ** Reading a run *)

(** The handles alive after a history of operations. *)
Definition applyOp (live : list nat) (op : WorkerOp) : list nat :=
  match op with
  | Launch id => live ++ [id]
  | Send _ _ => live
  | Teardown id => List.filter (fun x => negb (Nat.eqb x id)) live
  end.

Definition liveWorkers (log : list WorkerOp) : list nat :=
  fold_left applyOp log [].

(** The part of the state only the caller thread writes. *)
Definition handles (st : State) : option Superprocess * list WorkerOp * nat :=
  (superprocess st, workerLog st, launched st).

(** The members the connection thread's handlers write. *)
Definition reply (st : State) : option XmlElement * bool * bool :=
  (pluginDescription st, gotResponse st, connectionLost st).

(** The handle the scanner's slot holds. *)
Definition slot (st : State) : list nat :=
  match superprocess st with
  | Some sp => [workerId sp]
  | None => []
  end.

(** The scanner is tidy when the handles alive by its log are the one in
    its slot. *)
Definition tidy (st : State) : Prop :=
  liveWorkers (workerLog st) = slot st.

(** A log in which handles are made one at a time: at no point of it are two
    handles alive, and each launch finds none alive. *)
Definition oneAtATime (log : list WorkerOp) : Prop :=
  (forall n, length (liveWorkers (firstn n log)) <= 1)
  /\ (forall before id after,
        log = before ++ Launch id :: after -> liveWorkers before = []).

(** The invariant of the caller thread's steps. *)
Definition wellKept (st : State) : Prop :=
  oneAtATime (workerLog st) /\ tidy st.

(** Reads a [uint32] length field back. *)
Definition readUint32 (field : list byte) : option N :=
  match field with
  | [b0; b1; b2; b3] =>
      Some (Byte.to_N b0 + 256 * Byte.to_N b1 + 65536 * Byte.to_N b2
            + 16777216 * Byte.to_N b3)%N
  | _ => None
  end.

(** The blocks handed to [sendMessageToWorker], oldest first. *)
Fixpoint sentBlocks (log : list WorkerOp) : list MemoryBlock :=
  match log with
  | [] => []
  | Send _ block :: rest => block :: sentBlocks rest
  | _ :: rest => sentBlocks rest
  end.

(** How many handles a log saw made. *)
Definition launches (log : list WorkerOp) : nat :=
  length (List.filter (fun op => match op with Launch _ => true | _ => false end)
                      log).

(** Kinds of events. *)
Definition isExit (e : Event) : bool :=
  match e with FromHost ExitRequested => true | _ => false end.

Definition isLoss (e : Event) : bool :=
  match e with FromWorker ConnectionLost => true | _ => false end.

Definition isModeEvent (e : Event) : bool :=
  match e with
  | FromHost (SetValue _ _) | FromHost ChangeMessage => true
  | _ => false
  end.

Definition isHostEvent (e : Event) : bool :=
  match e with FromHost _ => true | FromWorker _ => false end.

(** Nothing in [evs] asks the scan to stop. *)
Definition noExit (evs : list Event) : bool := forallb (fun e => negb (isExit e)) evs.

(** Nothing in [evs] reports the connection lost. *)
Definition noLoss (evs : list Event) : bool := forallb (fun e => negb (isLoss e)) evs.

(** Nothing in [evs] comes from the worker: a call that is waiting for a
    reply keeps waiting through it, unless it is asked to stop. *)
Definition hostOnly (evs : list Event) : bool := forallb isHostEvent evs.

(** [evs] only touches the settings and the mode flag. *)
Definition modeOnly (evs : list Event) : bool := forallb isModeEvent evs.

(** The mode flag and the settings it is read from. *)
Definition modePart (st : State) : bool * option (gmap string Z) :=
  (scanInProcess st, userSettings st).

(** A schedule with the settings changes and change messages taken out. *)
Definition withoutModeEvents (evs : list Event) : list Event :=
  List.filter (fun e => negb (isModeEvent e)) evs.

Definition withoutModeChanges (env : Schedule) : Schedule :=
  {| sendOk := sendOk env;
     beforeLock := withoutModeEvents (beforeLock env);
     whileWaiting := map withoutModeEvents (whileWaiting env);
     afterWake :=
       List.filter (fun e => negb (isModeEvent (FromHost e))) (afterWake env) |}.

(** A state with the mode flag and the settings blanked: what is left is
    everything a call does apart from what it does to the mode. *)
Definition forgetMode (st : State) : State :=
  set_scanInProcess true (set_userSettings None st).

Section Observers.
Context `{Framework}.

(** The descriptors a list of reply children holds: those that load, in
    order. *)
Fixpoint descriptorsOf (items : list XmlElement) : list PluginDescription :=
  match items with
  | [] => []
  | item :: rest =>
      match loadFromXml item with
      | Some desc => desc :: descriptorsOf rest
      | None => descriptorsOf rest
      end
  end.

(** The descriptors a reply holds: none when it does not parse. *)
Definition replyDescriptors (mb : MemoryBlock) : list PluginDescription :=
  match parseXML (MemoryBlock_toString mb) with
  | Some xml => descriptorsOf (getChildIterator xml)
  | None => []
  end.

(** The descriptors of the reply the scanner holds. *)
Definition storedDescriptors (st : State) : list PluginDescription :=
  match pluginDescription st with
  | Some xml => descriptorsOf (getChildIterator xml)
  | None => []
  end.

(** An outcome with the stored reply blanked in its state. *)
Definition forgetReplyOf (o : Outcome) : Outcome :=
  match o with
  | Returned ok result st => Returned ok result (clearResponse st)
  | Blocked st => Blocked (clearResponse st)
  end.

Definition forgetModeOf (o : Outcome) : Outcome :=
  match o with
  | Returned ok result st => Returned ok result (forgetMode st)
  | Blocked st => Blocked (forgetMode st)
  end.

(** The events that happen while the wait loop runs: the stretches of
    waiting up to the one after which the predicate holds. *)
Fixpoint waited (st : State) (intervals : list (list Event)) : list Event :=
  if wakePredicate st then []
  else match intervals with
       | [] => []
       | evs :: rest => evs ++ waited (deliverAll st evs) rest
       end.

(** The handle an out-of-process call works with: the one in the slot, or
    the one it makes. *)
Definition theWorker (st : State) : Superprocess :=
  match superprocess st with
  | Some sp => sp
  | None => {| workerId := launched st |}
  end.

(** The state in which an out-of-process call whose send succeeded starts to
    wait. *)
Definition waitStart (format : AudioPluginFormat) (fileOrIdentifier : string)
                     (env : Schedule) (st : State) : State :=
  let block := requestBlock format fileOrIdentifier in
  let st := logOp (Send (workerId (theWorker st)) block) false
                  (ensureSuperprocess st) in
  clearResponse (deliverAll st (beforeLock env)).

(** The state in which a call that went to the worker and woke from its wait
    makes the tests that follow the loop. *)
Definition stateAtWake (format : AudioPluginFormat) (fileOrIdentifier : string)
                       (env : Schedule) (st : State) : option State :=
  if scanInProcess st then None
  else if sendOk env then
    match waitForResponse (waitStart format fileOrIdentifier env st)
                          (whileWaiting env) with
    | (true, st) => Some (deliverAll st (map FromHost (afterWake env)))
    | (false, _) => None
    end
  else None.

(** The events of the schedule a call lives through. *)
Definition eventsDuring (format : AudioPluginFormat) (fileOrIdentifier : string)
                        (env : Schedule) (st : State) : list Event :=
  if scanInProcess st then []
  else if sendOk env then
    let st := waitStart format fileOrIdentifier env st in
    beforeLock env ++ waited st (whileWaiting env)
      ++ (if fst (waitForResponse st (whileWaiting env))
          then map FromHost (afterWake env) else [])
  else [].

(** What a call that gives up its worker leaves in the log: the request it
    sent, then the teardown of the handle it used. *)
Definition sentThenReleased (format : AudioPluginFormat)
                            (fileOrIdentifier : string) (st : State)
  : list WorkerOp :=
  workerLog (ensureSuperprocess st)
    ++ [Send (workerId (theWorker st)) (requestBlock format fileOrIdentifier);
        Teardown (workerId (theWorker st))].

End Observers.

(** ** The host's main window

    [MainHostWindow]: its menus, its commands, the files dropped on it and
    the way it quits. The window calls into the graph editor, the command
    manager and the application; those calls are recorded, in order, as the
    [Action]s of the window. *)

(** [CommandIDs]: the commands of the host. *)
Module CommandIDs.
Inductive t : Type :=
| newFile | open | save | saveAs
| showPluginListEditor | showAudioSettings | toggleDoublePrecision
| aboutBox | allWindowsForward | autoScalePluginWindows.
End CommandIDs.

(** A [CommandID] is an integer: one of the host's commands,
    [StandardApplicationCommandIDs::quit] (a constant of the framework, none
    of the host's), or any other value. *)
Inductive CommandID : Type :=
| hostCommand (c : CommandIDs.t)
| StandardApplicationCommandIDs_quit
| otherCommand (n : Z).

(** [KnownPluginList::SortMethod] and what a variable of that type can hold:
    an enumerator, or another integer that was cast to the type. *)
Module KnownPluginList.
Inductive SortMethod : Type :=
| defaultOrder | sortAlphabetically | sortByCategory
| sortByManufacturer | sortByFileSystemLocation.
End KnownPluginList.

Inductive SortValue : Type :=
| enumerator (m : KnownPluginList.SortMethod)
| castFrom (n : Z).

(** [pluginSortMethod == m]. *)
Definition isSortMethod (v : SortValue) (m : KnownPluginList.SortMethod) : bool :=
  match v, m with
  | enumerator KnownPluginList.defaultOrder, KnownPluginList.defaultOrder
  | enumerator KnownPluginList.sortAlphabetically, KnownPluginList.sortAlphabetically
  | enumerator KnownPluginList.sortByCategory, KnownPluginList.sortByCategory
  | enumerator KnownPluginList.sortByManufacturer, KnownPluginList.sortByManufacturer
  | enumerator KnownPluginList.sortByFileSystemLocation,
    KnownPluginList.sortByFileSystemLocation => true
  | _, _ => false
  end.

(** [PopupMenu]: the entries added to a menu, in order. [Item] is
    [addItem (itemID, text, isEnabled, isTicked)]. *)
Inductive MenuEntry : Type :=
| CommandItem (commandID : CommandID)
| Item (itemID : Z) (text : string) (isEnabled isTicked : bool)
| SubMenu (name : string) (entries : list MenuEntry)
| Separator.

(** [Component::SafePointer]: null from the start, or watching the window,
    in which case it is null once the window is deleted. *)
Inductive SafePointer : Type :=
| nullSafePointer
| safePointerToThis.

Definition isNullPointer (p : SafePointer) (windowAlive : bool) : bool :=
  match p with
  | nullSafePointer => true
  | safePointerToThis => negb windowAlive
  end.

(** [FileBasedDocument::SaveResult]: the callbacks only ask whether it is
    [savedOk]. *)
Inductive SaveResult : Type :=
| savedOk
| notSaved.

(** What the callbacks given to [saveIfNeededAndUserAgreesAsync] do once the
    document is saved. *)
Inductive GraphRequest : Type :=
| loadFrom (file : string)
| loadFromRecentFile (recentFiles : string) (index : Z)
| newDocument
| loadFromUserSpecifiedFileAsync
| releaseGraphAndQuit.

(** The callbacks all have one shape: return if the captured [parent] is
    null, then act if the result is [savedOk]. *)
Record SaveCallback : Type := {
  parent : SafePointer;
  whenSavedOk : GraphRequest
}.

Definition runSaveCallback (cb : SaveCallback) (windowAlive : bool)
                           (r : SaveResult) : list GraphRequest :=
  if isNullPointer (parent cb) windowAlive then []
  else match r with
       | savedOk => [whenSavedOk cb]
       | notSaved => []
       end.

(** [Point<int>]. *)
Definition Point : Type := (Z * Z)%type.

(** The value of an [int] expression that was computed in a wider type. *)
Definition toInt (z : Z) : Z :=
  ((z + 2147483648) mod 4294967296 - 2147483648)%Z.

Section HostWindow.
Context `{Framework}.

(** The calls the window makes into the rest of the host. *)
Inductive Action : Type :=
| graph_clear
| graph_saveIfNeededAndUserAgreesAsync (callback : SaveCallback)
| graph_saveAsync
| graph_saveAsAsync
| graphHolder_createNewPlugin (desc : PluginDescription) (pos : Point)
| graphHolder_unfocusKeyboardComponent
| graphHolder_setDoublePrecision (b : bool)
| graphHolder_releaseGraph
| knownPluginList_scanAndAddDragAndDroppedFiles (files : list string)
| menuItemsChanged
| newPluginListWindow
| pluginListWindow_toFront
| launchAudioSettings
| desktopComponent_toBehind (i : nat)
| newAsyncQuitRetrier
| JUCEApplication_quit.

(** What the window uses and the sources do not hold: the fields of a
    descriptor it reads, the settings file, and the routines of the
    framework and of the host's other files it calls for a value. The two
    [bool]s are the build: [mobile] is [JUCE_IOS || JUCE_ANDROID]. *)
Class HostFramework : Type := {
  mobile : bool;
  autoScaleOptionAvailable : bool;
  PluginDescription_name : PluginDescription -> string;
  PluginDescription_pluginFormatName : PluginDescription -> string;
  InternalPluginFormat_getIdentifier : string;
  Array_get : list PluginDescription -> Z -> PluginDescription;
  KnownPluginList_getIndexChosenByMenu : list PluginDescription -> Z -> Z;
  KnownPluginList_addToMenu :
    list MenuEntry -> list PluginDescription -> SortValue -> list MenuEntry;
  SortValue_toInt : SortValue -> Z;
  RecentlyOpenedFilesList_createPopupMenuItems : string -> Z -> list MenuEntry;
  PropertiesFile : Type;
  PropertiesFile_getValue : PropertiesFile -> string -> string;
  PropertiesFile_getBoolValue : PropertiesFile -> string -> bool -> bool;
  PropertiesFile_setInt : PropertiesFile -> string -> Z -> PropertiesFile;
  PropertiesFile_setBool : PropertiesFile -> string -> bool -> PropertiesFile;
  File_isGraphDocument : string -> bool;
  scanAndAddDragAndDroppedFiles : list string -> list (option PluginDescription);
  getLocalPoint : Z -> Z -> Point
}.

Context `{HostFramework}.

(** [GraphDocumentComponent], as far as the window looks into it: whether
    it has a graph. *)
Record GraphDocumentComponent : Type := { graph : bool }.

(** The members of [MainHostWindow] these functions use, the host's settings
    file, and the calls made so far, oldest first.
    [getAppProperties().getUserSettings()] is not null: the constructor of
    the window uses it without a test. *)
Record MainHostWindow : Type := {
  graphHolder : option GraphDocumentComponent;
  pluginListWindow : bool;
  internalTypes : list PluginDescription;
  pluginDescriptions : list PluginDescription;
  pluginSortMethod : SortValue;
  knownPluginList : list PluginDescription;
  appSettings : PropertiesFile;
  actions : list Action
}.

Definition act (a : Action) (w : MainHostWindow) : MainHostWindow :=
  {| graphHolder := graphHolder w; pluginListWindow := pluginListWindow w;
     internalTypes := internalTypes w; pluginDescriptions := pluginDescriptions w;
     pluginSortMethod := pluginSortMethod w; knownPluginList := knownPluginList w;
     appSettings := appSettings w; actions := actions w ++ [a] |}.

Definition set_pluginSortMethod (v : SortValue) (w : MainHostWindow) : MainHostWindow :=
  {| graphHolder := graphHolder w; pluginListWindow := pluginListWindow w;
     internalTypes := internalTypes w; pluginDescriptions := pluginDescriptions w;
     pluginSortMethod := v; knownPluginList := knownPluginList w;
     appSettings := appSettings w; actions := actions w |}.

Definition set_pluginDescriptions (v : list PluginDescription)
                                  (w : MainHostWindow) : MainHostWindow :=
  {| graphHolder := graphHolder w; pluginListWindow := pluginListWindow w;
     internalTypes := internalTypes w; pluginDescriptions := v;
     pluginSortMethod := pluginSortMethod w; knownPluginList := knownPluginList w;
     appSettings := appSettings w; actions := actions w |}.

Definition set_appSettings (v : PropertiesFile) (w : MainHostWindow) : MainHostWindow :=
  {| graphHolder := graphHolder w; pluginListWindow := pluginListWindow w;
     internalTypes := internalTypes w; pluginDescriptions := pluginDescriptions w;
     pluginSortMethod := pluginSortMethod w; knownPluginList := knownPluginList w;
     appSettings := v; actions := actions w |}.

Definition set_pluginListWindow (v : bool) (w : MainHostWindow) : MainHostWindow :=
  {| graphHolder := graphHolder w; pluginListWindow := v;
     internalTypes := internalTypes w; pluginDescriptions := pluginDescriptions w;
     pluginSortMethod := pluginSortMethod w; knownPluginList := knownPluginList w;
     appSettings := appSettings w; actions := actions w |}.

(** [graphHolder != nullptr] and the graph inside it. *)
Definition hasGraphHolder (w : MainHostWindow) : bool :=
  match graphHolder w with Some _ => true | None => false end.

Definition hasGraph (w : MainHostWindow) : bool :=
  match graphHolder w with Some g => graph g | None => false end.

(** [MainHostWindow::getMenuBarNames]. *)
Definition getMenuBarNames : list string :=
  ["File"; "Plugins"; "Options"; "Windows"].

(** The text of the menu item of an internal type. *)
Definition internalItemText (t : PluginDescription) : string :=
  PluginDescription_name t ++ " (" ++ PluginDescription_pluginFormatName t ++ ")".

(** The loop of [addPluginsToMenu] over [internalTypes]: [i] is the counter
    before the pass, and each pass adds an item under [++i]. *)
Fixpoint addInternalTypes (i : Z) (types : list PluginDescription)
                          (m : list MenuEntry) : list MenuEntry :=
  match types with
  | [] => m
  | t :: rest =>
      addInternalTypes (i + 1) rest
                       (m ++ [Item (i + 1) (internalItemText t) true false])
  end.

(** [Array::removeIf] with the test of [addPluginsToMenu]. *)
Definition withoutInternalFormat (types : list PluginDescription)
  : list PluginDescription :=
  List.filter (fun desc =>
                 negb (String.eqb (PluginDescription_pluginFormatName desc)
                                  InternalPluginFormat_getIdentifier))
              types.

(** [addPluginsToMenu], up to the call of [KnownPluginList::addToMenu]. *)
Definition ownPluginItems (m : list MenuEntry) (w : MainHostWindow)
  : list MenuEntry :=
  let m := if hasGraphHolder w then addInternalTypes 0 (internalTypes w) m
           else m in
  m ++ [Separator].

(** [MainHostWindow::addPluginsToMenu]. *)
Definition addPluginsToMenu (m : list MenuEntry) (w : MainHostWindow)
  : list MenuEntry * MainHostWindow :=
  let m := ownPluginItems m w in
  let w := set_pluginDescriptions (withoutInternalFormat (knownPluginList w)) w in
  (KnownPluginList_addToMenu m (pluginDescriptions w) (pluginSortMethod w), w).

(** [MainHostWindow::getChosenType]. The index into [internalTypes] is in
    range whenever the test holds. *)
Definition getChosenType (menuID : Z) (w : MainHostWindow) : PluginDescription :=
  let fromList :=
    Array_get (pluginDescriptions w)
              (KnownPluginList_getIndexChosenByMenu (pluginDescriptions w) menuID) in
  if (1 <=? menuID)%Z
     && (menuID <? toInt (1 + Z.of_nat (length (internalTypes w))))%Z
  then match internalTypes w !! Z.to_nat (menuID - 1) with
       | Some t => t
       | None => fromList
       end
  else fromList.

(** [MainHostWindow::createPlugin]. *)
Definition createPlugin (desc : PluginDescription) (pos : Point)
                        (w : MainHostWindow) : MainHostWindow :=
  if hasGraphHolder w then act (graphHolder_createNewPlugin desc pos) w else w.

(** The sort-type submenu of the options menu. *)
Definition sortTypeMenu (w : MainHostWindow) : list MenuEntry :=
  [Item 200 "List Plug-ins in Default Order" true
        (isSortMethod (pluginSortMethod w) KnownPluginList.defaultOrder);
   Item 201 "List Plug-ins in Alphabetical Order" true
        (isSortMethod (pluginSortMethod w) KnownPluginList.sortAlphabetically);
   Item 202 "List Plug-ins by Category" true
        (isSortMethod (pluginSortMethod w) KnownPluginList.sortByCategory);
   Item 203 "List Plug-ins by Manufacturer" true
        (isSortMethod (pluginSortMethod w) KnownPluginList.sortByManufacturer);
   Item 204 "List Plug-ins Based on the Directory Structure" true
        (isSortMethod (pluginSortMethod w) KnownPluginList.sortByFileSystemLocation)].

(** [MainHostWindow::getMenuForIndex]. Building the plugins menu refreshes
    [pluginDescriptions]. *)
Definition getMenuForIndex (topLevelMenuIndex : Z) (w : MainHostWindow)
  : list MenuEntry * MainHostWindow :=
  if (topLevelMenuIndex =? 0)%Z then
    let recentFilesMenu :=
      RecentlyOpenedFilesList_createPopupMenuItems
        (PropertiesFile_getValue (appSettings w) "recentFilterGraphFiles") 100 in
    ((if mobile then []
      else [CommandItem (hostCommand CommandIDs.newFile);
            CommandItem (hostCommand CommandIDs.open)])
       ++ [SubMenu "Open recent file" recentFilesMenu]
       ++ (if mobile then []
           else [CommandItem (hostCommand CommandIDs.save);
                 CommandItem (hostCommand CommandIDs.saveAs)])
       ++ [Separator; CommandItem StandardApplicationCommandIDs_quit],
     w)
  else if (topLevelMenuIndex =? 1)%Z then
    let (pluginsMenu, w) := addPluginsToMenu [] w in
    ([SubMenu "Create Plug-in" pluginsMenu; Separator;
      Item 250 "Delete All Plug-ins" true false],
     w)
  else if (topLevelMenuIndex =? 2)%Z then
    ([CommandItem (hostCommand CommandIDs.showPluginListEditor);
      SubMenu "Plug-in Menu Type" (sortTypeMenu w);
      Separator;
      CommandItem (hostCommand CommandIDs.showAudioSettings);
      CommandItem (hostCommand CommandIDs.toggleDoublePrecision)]
       ++ (if autoScaleOptionAvailable
           then [CommandItem (hostCommand CommandIDs.autoScalePluginWindows)]
           else [])
       ++ [Separator; CommandItem (hostCommand CommandIDs.aboutBox)],
     w)
  else if (topLevelMenuIndex =? 3)%Z then
    ([CommandItem (hostCommand CommandIDs.allWindowsForward)], w)
  else ([], w).

(** The chain of assignments to [pluginSortMethod] in [menuItemSelected]. *)
Definition sortMethodForItem (menuItemID : Z) (current : SortValue) : SortValue :=
  if (menuItemID =? 200)%Z then enumerator KnownPluginList.defaultOrder
  else if (menuItemID =? 201)%Z then enumerator KnownPluginList.sortAlphabetically
  else if (menuItemID =? 202)%Z then enumerator KnownPluginList.sortByCategory
  else if (menuItemID =? 203)%Z then enumerator KnownPluginList.sortByManufacturer
  else if (menuItemID =? 204)%Z
       then enumerator KnownPluginList.sortByFileSystemLocation
  else current.

(** [MainHostWindow::menuItemSelected]. [pos] is the point the two random
    proportions give. *)
Definition menuItemSelected (menuItemID : Z) (pos : Point) (w : MainHostWindow)
  : MainHostWindow :=
  if (menuItemID =? 250)%Z then
    if hasGraphHolder w && hasGraph w then act graph_clear w else w
  else if negb mobile && (100 <=? menuItemID)%Z && (menuItemID <? 200)%Z then
    let recentFiles :=
      PropertiesFile_getValue (appSettings w) "recentFilterGraphFiles" in
    if hasGraphHolder w && hasGraph w
    then act (graph_saveIfNeededAndUserAgreesAsync
                {| parent := safePointerToThis;
                   whenSavedOk := loadFromRecentFile recentFiles
                                                     (menuItemID - 100) |}) w
    else w
  else if (200 <=? menuItemID)%Z && (menuItemID <? 210)%Z then
    let w := set_pluginSortMethod
               (sortMethodForItem menuItemID (pluginSortMethod w)) w in
    let w := set_appSettings
               (PropertiesFile_setInt (appSettings w) "pluginSortMethod"
                                      (SortValue_toInt (pluginSortMethod w))) w in
    act menuItemsChanged w
  else
    if (0 <=? KnownPluginList_getIndexChosenByMenu (pluginDescriptions w)
                                                   menuItemID)%Z
    then createPlugin (getChosenType menuItemID w) pos w
    else w.

(** [MainHostWindow::menuBarActivated]. *)
Definition menuBarActivated (isActivated : bool) (w : MainHostWindow)
  : MainHostWindow :=
  if isActivated && hasGraphHolder w
  then act graphHolder_unfocusKeyboardComponent w else w.

(** [MainHostWindow::getAllCommands]: the ids are added to [commands]. *)
Definition getAllCommands (commands : list CommandID) : list CommandID :=
  commands
    ++ (if mobile then []
        else [hostCommand CommandIDs.newFile; hostCommand CommandIDs.open;
              hostCommand CommandIDs.save; hostCommand CommandIDs.saveAs])
    ++ [hostCommand CommandIDs.showPluginListEditor;
        hostCommand CommandIDs.showAudioSettings;
        hostCommand CommandIDs.toggleDoublePrecision;
        hostCommand CommandIDs.aboutBox;
        hostCommand CommandIDs.allWindowsForward;
        hostCommand CommandIDs.autoScalePluginWindows].

(** [isDoublePrecisionProcessingEnabled], [isAutoScalePluginWindowsEnabled]. *)
Definition isDoublePrecisionProcessingEnabled (w : MainHostWindow) : bool :=
  PropertiesFile_getBoolValue (appSettings w) "doublePrecisionProcessing" false.

Definition isAutoScalePluginWindowsEnabled (w : MainHostWindow) : bool :=
  PropertiesFile_getBoolValue (appSettings w) "autoScalePluginWindows" false.

(** The loop of [allWindowsForward] over the desktop's components. *)
Fixpoint allToBehind (i n : nat) (w : MainHostWindow) : MainHostWindow :=
  match n with
  | O => w
  | S n => allToBehind (S i) n (act (desktopComponent_toBehind i) w)
  end.

(** The four file commands of [perform], which a mobile build leaves to the
    [default] case. *)
Definition performFileCommand (c : CommandIDs.t) (w : MainHostWindow)
  : MainHostWindow :=
  if hasGraphHolder w && hasGraph w then
    match c with
    | CommandIDs.newFile =>
        act (graph_saveIfNeededAndUserAgreesAsync
               {| parent := safePointerToThis; whenSavedOk := newDocument |}) w
    | CommandIDs.open =>
        act (graph_saveIfNeededAndUserAgreesAsync
               {| parent := safePointerToThis;
                  whenSavedOk := loadFromUserSpecifiedFileAsync |}) w
    | CommandIDs.save => act graph_saveAsync w
    | CommandIDs.saveAs => act graph_saveAsAsync w
    | _ => w
    end
  else w.

(** [MainHostWindow::perform]. [numComponents] is
    [Desktop::getNumComponents()]. *)
Definition perform (commandID : CommandID) (numComponents : nat)
                   (w : MainHostWindow) : bool * MainHostWindow :=
  match commandID with
  | hostCommand c =>
      match c with
      | CommandIDs.newFile | CommandIDs.open
      | CommandIDs.save | CommandIDs.saveAs =>
          if mobile then (false, w) else (true, performFileCommand c w)
      | CommandIDs.showPluginListEditor =>
          let w := if pluginListWindow w then w
                   else set_pluginListWindow true (act newPluginListWindow w) in
          (true, act pluginListWindow_toFront w)
      | CommandIDs.showAudioSettings => (true, act launchAudioSettings w)
      | CommandIDs.toggleDoublePrecision =>
          let newIsDoublePrecision :=
            negb (isDoublePrecisionProcessingEnabled w) in
          let w := set_appSettings
                     (PropertiesFile_setBool (appSettings w)
                        "doublePrecisionProcessing" newIsDoublePrecision) w in
          let w := act menuItemsChanged w in
          (true,
           if hasGraphHolder w
           then act (graphHolder_setDoublePrecision newIsDoublePrecision) w
           else w)
      | CommandIDs.autoScalePluginWindows =>
          let newAutoScale := negb (isAutoScalePluginWindowsEnabled w) in
          let w := set_appSettings
                     (PropertiesFile_setBool (appSettings w)
                        "autoScalePluginWindows" newAutoScale) w in
          (true, act menuItemsChanged w)
      | CommandIDs.aboutBox => (true, w)
      | CommandIDs.allWindowsForward => (true, allToBehind 0 numComponents w)
      end
  | StandardApplicationCommandIDs_quit | otherCommand _ => (false, w)
  end.

(** [PluginListWindow::closeButtonPressed]. *)
Definition PluginListWindow_closeButtonPressed (w : MainHostWindow)
  : MainHostWindow :=
  set_pluginListWindow false w.

(** The loop of [filesDropped] over the first [jmin (5, typesFound.size())]
    entries of [typesFound], an entry being a descriptor or null. *)
Fixpoint createFound (typesFound : list (option PluginDescription)) (pos : Point)
                     (w : MainHostWindow) : MainHostWindow :=
  match typesFound with
  | [] => w
  | Some desc :: rest => createFound rest pos (createPlugin desc pos w)
  | None :: rest => createFound rest pos w
  end.

(** [files[0]]: the first string. With no string there is none to take;
    the value is then not looked at, the test on [files.size()] failing
    first. *)
Definition firstOf (files : list string) : string :=
  match files with
  | f :: _ => f
  | [] => EmptyString
  end.

(** [MainHostWindow::filesDropped]. *)
Definition filesDropped (files : list string) (x y : Z) (w : MainHostWindow)
  : MainHostWindow :=
  if hasGraphHolder w then
    let firstFile := firstOf files in
    if negb mobile && (length files =? 1)%nat && File_isGraphDocument firstFile
    then
      if hasGraph w
      then act (graph_saveIfNeededAndUserAgreesAsync
                  {| parent := nullSafePointer;
                     whenSavedOk := loadFrom firstFile |}) w
      else w
    else
      let typesFound := scanAndAddDragAndDroppedFiles files in
      let w := act (knownPluginList_scanAndAddDragAndDroppedFiles files) w in
      let pos := getLocalPoint x y in
      createFound (firstn (Nat.min 5 (length typesFound)) typesFound) pos w
  else w.


End HostWindow.

(** ** A small framework instance

    Descriptors are plugin names. A reply is one character per record: [P]
    stands for a plugin record and anything else for a record of another
    kind. The empty text does not parse. *)

Fixpoint demoRecords (text : string) (n : nat) : list XmlElement :=
  match text with
  | EmptyString => []
  | String c rest =>
      XmlNode (if Ascii.eqb c "P"%char then "PLUGIN" else "OTHER")
              [("index", String (Ascii.ascii_of_nat (48 + n)) EmptyString)] []
        :: demoRecords rest (S n)
  end.

Definition demoParseXML (text : string) : option XmlElement :=
  match text with
  | EmptyString => None
  | _ => Some (XmlNode "KNOWNPLUGINS" [] (demoRecords text 0))
  end.

Definition demoLoadFromXml (xml : XmlElement) : option string :=
  match xml with
  | XmlNode tag attrs _ =>
      if String.eqb tag "PLUGIN"
      then Some (match attrs with (_, v) :: _ => v | [] => EmptyString end)
      else None
  end.

Definition demoFramework : Framework :=
  {| PluginDescription := string;
     MemoryBlock_toString := string_of_list_byte;
     parseXML := demoParseXML;
     loadFromXml := demoLoadFromXml |}.

(** A format that finds one plugin in every file. *)
Definition demoEnumerate (result : list string) (file : string) : list string :=
  result ++ [file].

Definition demoFormat : @AudioPluginFormat demoFramework :=
  @Build_AudioPluginFormat demoFramework "VST3" demoEnumerate.

Definition demoReply : MemoryBlock := list_byte_of_string "PxP".

Definition demoFile : string := "/plugins/Reverb.vst3".

Definition outOfProcessSettings : gmap string Z := {[ scanModeKey := 1%Z ]}.

(** A new scanner in a host whose settings select out-of-process scanning,
    and one in a host without a settings file. *)
Definition outOfProcessScanner : State := newScanner (Some outOfProcessSettings).

Definition defaultScanner : State := newScanner None.

(** The reply arrives in the second stretch of waiting. *)
Definition replySchedule : Schedule :=
  {| sendOk := true; beforeLock := [];
     whileWaiting := [[]; [FromWorker (MessageFromWorker demoReply)]];
     afterWake := [] |}.

(** The host asks scans to stop in the second stretch of waiting. *)
Definition exitSchedule : Schedule :=
  {| sendOk := true; beforeLock := [];
     whileWaiting := [[]; [FromHost ExitRequested]];
     afterWake := [] |}.

(** The connection is lost in the second stretch of waiting. *)
Definition lossSchedule : Schedule :=
  {| sendOk := true; beforeLock := [];
     whileWaiting := [[]; [FromWorker ConnectionLost]];
     afterWake := [] |}.

(** The connection is lost and the host asks scans to stop in the same
    stretch of waiting. *)
Definition lossAndExitSchedule : Schedule :=
  {| sendOk := true; beforeLock := [];
     whileWaiting := [[]; [FromWorker ConnectionLost; FromHost ExitRequested]];
     afterWake := [] |}.

(** The reply is faster than the caller: it arrives before the call has taken
    the lock, and nothing comes from the worker after that. *)
Definition earlyReplySchedule : Schedule :=
  {| sendOk := true;
     beforeLock := [FromWorker (MessageFromWorker demoReply)];
     whileWaiting := [[]; [FromHost ChangeMessage]; []];
     afterWake := [] |}.

(** A scanner whose worker answered one call and then died while idle. *)
Definition idleLossScanner : State :=
  @runCalls demoFramework
    [CallFindPluginTypesFor demoFormat [] demoFile replySchedule;
     Between [FromWorker ConnectionLost]]
    outOfProcessScanner.

(** A scanner in a host that has asked scans to stop. *)
Definition stoppingScanner : State :=
  @deliver demoFramework outOfProcessScanner (FromHost ExitRequested).

(** The mode is switched to in-process while the call waits for its reply. *)
Definition modeFlipSchedule : Schedule :=
  {| sendOk := true; beforeLock := [];
     whileWaiting :=
       [[FromHost (SetValue scanModeKey 0%Z); FromHost ChangeMessage];
        [FromWorker (MessageFromWorker demoReply)]];
     afterWake := [] |}.

(** ** A small host

    An instance of the host's framework, for the examples of the main
    window. *)

(** A desktop build over the small framework instance: descriptors are
    names, all of one format; the plug-in list's own menu items start at
    1000; the settings are integers under keys. *)
Definition demoIndexChosenByMenu (l : list string) (id : Z) : Z :=
  if (1000 <=? id)%Z && (id <? 1000 + Z.of_nat (length l))%Z
  then (id - 1000)%Z else (-1)%Z.

Definition demoSortValueToInt (v : SortValue) : Z :=
  match v with
  | enumerator KnownPluginList.defaultOrder => 0
  | enumerator KnownPluginList.sortAlphabetically => 1
  | enumerator KnownPluginList.sortByCategory => 2
  | enumerator KnownPluginList.sortByManufacturer => 3
  | enumerator KnownPluginList.sortByFileSystemLocation => 4
  | castFrom n => n
  end%Z.

Definition demoGetBoolValue (f : gmap string Z) (key : string) (fallback : bool)
  : bool :=
  match f !! key with
  | Some v => negb (v =? 0)%Z
  | None => fallback
  end.

Definition demoHostFramework : @HostFramework demoFramework :=
  @Build_HostFramework demoFramework
    false false
    (fun desc : string => desc)
    (fun _ : string => "VST3")
    "Internal"
    (fun (l : list string) i => nth (Z.to_nat i) l EmptyString)
    demoIndexChosenByMenu
    (fun m (l : list string) _ => m)
    demoSortValueToInt
    (fun _ _ => [])
    (gmap string Z)
    (fun _ _ => EmptyString)
    demoGetBoolValue
    (fun (f : gmap string Z) key v => <[key := v]> f)
    (fun (f : gmap string Z) key (b : bool) => <[key := if b then 1%Z else 0%Z]> f)
    (fun f => String.eqb f "song.filtergraph")
    (fun files => map Some files)
    (fun x y => (x, y)).

(** A window with a graph and two internal types. *)
Definition demoWindow : @MainHostWindow demoFramework demoHostFramework :=
  @Build_MainHostWindow demoFramework demoHostFramework
    (Some {| graph := true |})
    false ["Audio Input"; "Audio Output"] [] (castFrom 7) []
    (∅ : gmap string Z) [].

(** * Properties *)

Section ScannerFacts.
Context `{Framework}.

(** ** What events leave alone *)

Ltac event_cases e st :=
  destruct e as [[| ? ? |] | [? |]];
  cbn [deliver hostEvent]; unfold workerEvent;
  unfold changeListenerCallback, handleMessageFromWorker, handleConnectionLost;
  try destruct (userSettings st); try destruct (superprocess st) eqn:?.

Ltac fields :=
  cbn [workerLog superprocess launched logOp set_superprocess
       set_connectionLost makeSuperprocess].

Lemma deliver_handles (st : State) (e : Event) :
  handles (deliver st e) = handles st.
Proof. event_cases e st; reflexivity. Qed.

Lemma deliverAll_handles (evs : list Event) (st : State) :
  handles (deliverAll st evs) = handles st.
Proof.
  revert st. induction evs as [| e evs IH]; intros st; [reflexivity |].
  cbn [deliverAll fold_left]. fold (deliverAll (deliver st e) evs).
  rewrite IH. apply deliver_handles.
Qed.

Lemma handles_fields (a b : State) :
  handles a = handles b ->
  superprocess a = superprocess b /\ workerLog a = workerLog b
  /\ launched a = launched b.
Proof. unfold handles. intros E. inversion E. auto. Qed.

Lemma waitForResponse_handles (intervals : list (list Event)) (st : State) :
  handles (snd (waitForResponse st intervals)) = handles st.
Proof.
  revert st. induction intervals as [| evs rest IH]; intros st;
    cbn [waitForResponse]; destruct (wakePredicate st); try reflexivity.
  rewrite IH. apply deliverAll_handles.
Qed.

Lemma deliverAll_app (st : State) (xs ys : list Event) :
  deliverAll st (xs ++ ys) = deliverAll (deliverAll st xs) ys.
Proof. unfold deliverAll. apply fold_left_app. Qed.

(** ** The request to exit stays *)

Lemma deliver_exit_stays (st : State) (e : Event) :
  exitRequested st = true -> exitRequested (deliver st e) = true.
Proof. intros E. event_cases e st; cbn; assumption || reflexivity. Qed.

Lemma deliverAll_exit_stays (evs : list Event) (st : State) :
  exitRequested st = true -> exitRequested (deliverAll st evs) = true.
Proof.
  revert st. induction evs as [| e evs IH]; intros st E; [exact E |].
  apply (IH (deliver st e)), deliver_exit_stays, E.
Qed.

Lemma deliverAll_exit_raised (evs : list Event) (st : State) :
  In (FromHost ExitRequested) evs -> exitRequested (deliverAll st evs) = true.
Proof.
  revert st. induction evs as [| e evs IH]; intros st I; [destruct I |].
  destruct I as [-> | I].
  - apply (deliverAll_exit_stays evs (deliver st (FromHost ExitRequested))).
    reflexivity.
  - apply (IH (deliver st e)), I.
Qed.

Lemma deliverAll_noExit (evs : list Event) (st : State) :
  noExit evs = true -> exitRequested (deliverAll st evs) = exitRequested st.
Proof.
  revert st. induction evs as [| e evs IH]; intros st N; [reflexivity |].
  cbn in N. apply andb_true_iff in N as [Ne N].
  cbn [deliverAll fold_left]. fold (deliverAll (deliver st e) evs).
  rewrite (IH _ N). clear IH N.
  event_cases e st; try reflexivity; cbn in *; congruence.
Qed.

(** ** Events from the host do not touch the reply *)

Lemma deliverAll_hostOnly (evs : list Event) (st : State) :
  hostOnly evs = true -> reply (deliverAll st evs) = reply st.
Proof.
  revert st. induction evs as [| e evs IH]; intros st N; [reflexivity |].
  cbn in N. apply andb_true_iff in N as [Ne N].
  cbn [deliverAll fold_left]. fold (deliverAll (deliver st e) evs).
  rewrite (IH _ N). clear IH N.
  event_cases e st; try reflexivity; cbn in *; congruence.
Qed.

Lemma reply_fields (a b : State) :
  reply a = reply b ->
  pluginDescription a = pluginDescription b /\ gotResponse a = gotResponse b
  /\ connectionLost a = connectionLost b.
Proof. unfold reply. intros E. inversion E. auto. Qed.

(** ** The shape of a call *)

Lemma ensureSuperprocess_slot (st : State) :
  superprocess (ensureSuperprocess st) = Some (theWorker st).
Proof.
  unfold ensureSuperprocess, theWorker.
  destruct (superprocess st) eqn:E; [exact E | reflexivity].
Qed.

Lemma resetSuperprocess_slot (st : State) :
  superprocess (resetSuperprocess st) = None.
Proof.
  unfold resetSuperprocess. destruct (superprocess st) eqn:E; [reflexivity | exact E].
Qed.

Lemma resetSuperprocess_log (st : State) (sp : Superprocess) :
  superprocess st = Some sp ->
  workerLog (resetSuperprocess st) = workerLog st ++ [Teardown (workerId sp)].
Proof. intros E. unfold resetSuperprocess. rewrite E. reflexivity. Qed.

Lemma find_inProcess (format : AudioPluginFormat)
      (result : list PluginDescription) (file : string)
      (env : Schedule) (st : State) :
  scanInProcess st = true ->
  findPluginTypesFor format result file env st
  = Returned true (findAllTypesForFile format result file) (resetSuperprocess st).
Proof. intros M. unfold findPluginTypesFor. rewrite M. reflexivity. Qed.

Lemma find_sendFailed (format : AudioPluginFormat)
      (result : list PluginDescription) (file : string)
      (env : Schedule) (st : State) :
  scanInProcess st = false -> sendOk env = false ->
  findPluginTypesFor format result file env st
  = Returned false result
      (resetSuperprocess
         (logOp (Send (workerId (theWorker st)) (requestBlock format file)) false
                (ensureSuperprocess st))).
Proof.
  intros M S. unfold findPluginTypesFor, sendMessageToWorker.
  rewrite M, ensureSuperprocess_slot, S. reflexivity.
Qed.

Lemma find_sent (format : AudioPluginFormat)
      (result : list PluginDescription) (file : string)
      (env : Schedule) (st : State) :
  scanInProcess st = false -> sendOk env = true ->
  findPluginTypesFor format result file env st
  = match waitForResponse (waitStart format file env st) (whileWaiting env) with
    | (true, w) => afterWait result (deliverAll w (map FromHost (afterWake env)))
    | (false, w) => Blocked w
    end.
Proof.
  intros M S. unfold findPluginTypesFor, sendMessageToWorker, waitStart.
  rewrite M, ensureSuperprocess_slot, S. reflexivity.
Qed.

Lemma find_stateAtWake (format : AudioPluginFormat)
      (result : list PluginDescription) (file : string)
      (env : Schedule) (st w : State) :
  stateAtWake format file env st = Some w ->
  findPluginTypesFor format result file env st = afterWait result w.
Proof.
  unfold stateAtWake. intros E.
  destruct (scanInProcess st) eqn:M; [discriminate |].
  destruct (sendOk env) eqn:S; [| discriminate].
  rewrite (find_sent _ _ _ _ _ M S).
  destruct (waitForResponse _ _) as [[|] w']; [| discriminate].
  injection E as <-. reflexivity.
Qed.

(** The handle and the log while the call waits and when it wakes. *)
Lemma waitStart_handles (format : AudioPluginFormat) (file : string)
      (env : Schedule) (st : State) :
  superprocess (waitStart format file env st) = Some (theWorker st)
  /\ workerLog (waitStart format file env st)
     = workerLog (ensureSuperprocess st)
         ++ [Send (workerId (theWorker st)) (requestBlock format file)].
Proof.
  set (sent := logOp (Send (workerId (theWorker st)) (requestBlock format file))
                     false (ensureSuperprocess st)).
  assert (E : handles (waitStart format file env st) = handles sent).
  { rewrite <- (deliverAll_handles (beforeLock env) sent). reflexivity. }
  destruct (handles_fields _ _ E) as (-> & -> & _).
  split; [apply ensureSuperprocess_slot | reflexivity].
Qed.

Lemma released_after_wait (format : AudioPluginFormat) (file : string)
      (env : Schedule) (st w : State) (hostEvs : list HostEvent) :
  handles w = handles (waitStart format file env st) ->
  let w' := resetSuperprocess (deliverAll w (map FromHost hostEvs)) in
  superprocess w' = None /\ workerLog w' = sentThenReleased format file st.
Proof.
  intros Hw w'. split; [apply resetSuperprocess_slot |].
  destruct (handles_fields _ _ (deliverAll_handles (map FromHost hostEvs) w))
    as (E1 & E2 & _).
  destruct (handles_fields _ _ Hw) as (F1 & F2 & _).
  destruct (waitStart_handles format file env st) as (G1 & G2).
  subst w'. rewrite (resetSuperprocess_log _ (theWorker st)) by congruence.
  rewrite E2, F2, G2. unfold sentThenReleased. rewrite <- app_assoc. reflexivity.
Qed.

Lemma waitStart_reply (format : AudioPluginFormat) (file : string)
      (env : Schedule) (st : State) :
  gotResponse (waitStart format file env st) = false
  /\ pluginDescription (waitStart format file env st) = None.
Proof. split; reflexivity. Qed.

(** ** Leaving the wait on a request to exit *)

Lemma wake_on_exit (st : State) (intervals : list (list Event)) :
  exitRequested st = true -> waitForResponse st intervals = (true, st).
Proof.
  intros E. destruct intervals; cbn; unfold wakePredicate, shouldExit;
    rewrite E, orb_true_r; reflexivity.
Qed.

Lemma wait_until_exit (quiet : list (list Event)) (evs : list Event)
      (rest : list (list Event)) (st : State) :
  gotResponse st = false ->
  forallb hostOnly quiet = true ->
  In (FromHost ExitRequested) evs ->
  exists w, waitForResponse st (quiet ++ evs :: rest) = (true, w)
            /\ exitRequested w = true.
Proof.
  revert st. induction quiet as [| q quiet IH]; intros st G Q I.
  - destruct (exitRequested st) eqn:E.
    + exists st. split; [apply wake_on_exit, E | exact E].
    + cbn. unfold wakePredicate, shouldExit. rewrite G, E. cbn.
      exists (deliverAll st evs).
      pose proof (deliverAll_exit_raised evs st I) as X.
      split; [apply wake_on_exit, X | exact X].
  - cbn in Q. apply andb_true_iff in Q as [Qq Q].
    destruct (exitRequested st) eqn:E.
    + exists st. split; [apply wake_on_exit, E | exact E].
    + cbn. unfold wakePredicate, shouldExit. rewrite G, E. cbn.
      apply IH; [| exact Q | exact I].
      destruct (reply_fields _ _ (deliverAll_hostOnly q st Qq)) as (_ & -> & _).
      exact G.
Qed.

Lemma afterWait_exit (result : list PluginDescription) (w : State) :
  exitRequested w = true ->
  afterWait result w = Returned true result (resetSuperprocess w).
Proof. intros E. unfold afterWait, shouldExit. rewrite E. reflexivity. Qed.

Lemma woken_handles (st w : State) (intervals : list (list Event)) (b : bool) :
  waitForResponse st intervals = (b, w) -> handles w = handles st.
Proof.
  intros E. rewrite <- (waitForResponse_handles intervals st), E. reflexivity.
Qed.

(** C1. An out-of-process call whose request went out and that is waiting
    (nothing has come from the worker) when the host asks scans to stop
    returns [true], adds nothing to the caller's array, and leaves the slot
    empty, the handle it used torn down. *)
Theorem shutdown_while_waiting_is_empty_success
      (format : AudioPluginFormat) (result : list PluginDescription)
      (file : string) (env : Schedule) (st : State)
      (quiet : list (list Event)) (evs : list Event) (rest : list (list Event)) :
  scanInProcess st = false ->
  sendOk env = true ->
  whileWaiting env = quiet ++ evs :: rest ->
  forallb hostOnly quiet = true ->
  In (FromHost ExitRequested) evs ->
  exists st',
    findPluginTypesFor format result file env st = Returned true result st'
    /\ superprocess st' = None
    /\ workerLog st' = sentThenReleased format file st.
Proof.
  intros M S W Q I.
  rewrite (find_sent _ _ _ _ _ M S), W.
  destruct (wait_until_exit quiet evs rest (waitStart format file env st)
              (proj1 (waitStart_reply format file env st)) Q I)
    as (w & Ew & Xw).
  rewrite Ew, afterWait_exit by (apply deliverAll_exit_stays, Xw).
  eexists; split; [reflexivity |].
  apply (released_after_wait format file env), (woken_handles _ _ _ _ Ew).
Qed.

(** C4. A call that starts with the mode flag set to in-process returns
    [true] with the array as the format's own enumeration leaves it, whatever
    the schedule; the slot is empty afterwards, and the only thing that can
    have happened to a worker is the teardown of the handle the slot held:
    nothing is launched and nothing is sent. *)
Theorem in_process_scan_bypasses_worker
      (format : AudioPluginFormat) (result : list PluginDescription)
      (file : string) (env : Schedule) (st : State) :
  scanInProcess st = true ->
  exists st',
    findPluginTypesFor format result file env st
    = Returned true (findAllTypesForFile format result file) st'
    /\ superprocess st' = None
    /\ workerLog st'
       = workerLog st ++ match superprocess st with
                         | Some sp => [Teardown (workerId sp)]
                         | None => []
                         end
    /\ launched st' = launched st
    /\ reply st' = reply st.
Proof.
  intros M. rewrite (find_inProcess _ _ _ _ _ M).
  exists (resetSuperprocess st). split; [reflexivity |].
  split; [apply resetSuperprocess_slot |].
  unfold resetSuperprocess. destruct (superprocess st); cbn;
    rewrite ?app_nil_r; auto.
Qed.

(** C9. When a call wakes from its wait with the request to exit raised and
    the connection-lost flag set, it returns [true] with the array untouched
    and the slot empty: the exit test comes first. *)
Theorem exit_takes_precedence_over_connection_loss
      (format : AudioPluginFormat) (result : list PluginDescription)
      (file : string) (env : Schedule) (st w : State) :
  stateAtWake format file env st = Some w ->
  shouldExit w = true ->
  connectionLost w = true ->
  findPluginTypesFor format result file env st
  = Returned true result (resetSuperprocess w)
  /\ superprocess (resetSuperprocess w) = None.
Proof.
  intros A X _. rewrite (find_stateAtWake _ result _ _ _ _ A).
  split; [apply afterWait_exit, X | apply resetSuperprocess_slot].
Qed.

(** ** Leaving the wait on a lost connection *)

Lemma deliver_flags_stay (st : State) (e : Event) :
  (gotResponse st = true -> gotResponse (deliver st e) = true)
  /\ (connectionLost st = true -> connectionLost (deliver st e) = true).
Proof. event_cases e st; cbn; auto. Qed.

Lemma deliverAll_flags_stay (evs : list Event) (st : State) :
  (gotResponse st = true -> gotResponse (deliverAll st evs) = true)
  /\ (connectionLost st = true -> connectionLost (deliverAll st evs) = true).
Proof.
  revert st. induction evs as [| e evs IH]; intros st; [auto |].
  destruct (deliver_flags_stay st e) as [G L].
  destruct (IH (deliver st e)) as [G' L']. split; intros X; auto.
Qed.

Lemma deliverAll_loss_raised (evs : list Event) (st : State) (sp : Superprocess) :
  superprocess st = Some sp ->
  In (FromWorker ConnectionLost) evs ->
  gotResponse (deliverAll st evs) = true
  /\ connectionLost (deliverAll st evs) = true.
Proof.
  revert st. induction evs as [| e evs IH]; intros st P I; [destruct I |].
  destruct I as [-> | I].
  - destruct (deliverAll_flags_stay evs (deliver st (FromWorker ConnectionLost)))
      as [G L].
    assert (D : deliver st (FromWorker ConnectionLost) = handleConnectionLost st).
    { cbn [deliver]. unfold workerEvent. rewrite P. reflexivity. }
    rewrite D in G, L.
    change (deliverAll st (FromWorker ConnectionLost :: evs))
      with (deliverAll (deliver st (FromWorker ConnectionLost)) evs).
    rewrite D. split; [apply G | apply L]; reflexivity.
  - apply (IH (deliver st e)); [| exact I].
    destruct (handles_fields _ _ (deliver_handles st e)) as (-> & _). exact P.
Qed.

Lemma forallb_weaken {A : Type} (p q : A -> bool) (l : list A) :
  (forall x, p x = true -> q x = true) -> forallb p l = true -> forallb q l = true.
Proof.
  intros W. induction l as [| x l IH]; cbn; [auto |].
  intros X. apply andb_true_iff in X as [X1 X2].
  rewrite (W _ X1), (IH X2). reflexivity.
Qed.

Lemma modeOnly_hostOnly (evs : list Event) : modeOnly evs = true -> hostOnly evs = true.
Proof. apply forallb_weaken. intros [[| |] | []]; cbn; congruence. Qed.

Lemma modeOnly_noExit (evs : list Event) : modeOnly evs = true -> noExit evs = true.
Proof. apply forallb_weaken. intros [[| |] | []]; cbn; congruence. Qed.

(** A stretch with nothing but settings traffic leaves a waiting call
    waiting. *)
Lemma modeOnly_keeps_waiting (q : list Event) (st : State) :
  modeOnly q = true ->
  gotResponse (deliverAll st q) = gotResponse st
  /\ exitRequested (deliverAll st q) = exitRequested st
  /\ connectionLost (deliverAll st q) = connectionLost st
  /\ superprocess (deliverAll st q) = superprocess st.
Proof.
  intros Q.
  destruct (reply_fields _ _ (deliverAll_hostOnly q st (modeOnly_hostOnly q Q)))
    as (_ & -> & ->).
  rewrite (deliverAll_noExit q st (modeOnly_noExit q Q)).
  destruct (handles_fields _ _ (deliverAll_handles q st)) as (-> & _). auto.
Qed.

Lemma wait_until_loss (quiet : list (list Event)) (evs : list Event)
      (rest : list (list Event)) (st : State) (sp : Superprocess) :
  gotResponse st = false ->
  exitRequested st = false ->
  superprocess st = Some sp ->
  forallb modeOnly quiet = true ->
  In (FromWorker ConnectionLost) evs ->
  noExit evs = true ->
  exists w, waitForResponse st (quiet ++ evs :: rest) = (true, w)
            /\ exitRequested w = false /\ connectionLost w = true.
Proof.
  revert st. induction quiet as [| q quiet IH]; intros st G X P Q I N;
    cbn; unfold wakePredicate, shouldExit; rewrite G, X; cbn.
  - destruct (deliverAll_loss_raised evs st sp P I) as [G' L'].
    exists (deliverAll st evs).
    destruct rest; cbn; unfold wakePredicate; rewrite G'; cbn;
      rewrite (deliverAll_noExit evs st N); auto.
  - cbn in Q. apply andb_true_iff in Q as [Qq Q].
    destruct (modeOnly_keeps_waiting q st Qq) as (G' & X' & _ & P').
    apply IH; congruence.
Qed.

Lemma afterWait_loss (result : list PluginDescription) (w : State) :
  exitRequested w = false -> connectionLost w = true ->
  afterWait result w = Returned false result (resetSuperprocess w).
Proof. intros E L. unfold afterWait, shouldExit. rewrite E, L. reflexivity. Qed.

Lemma ensureSuperprocess_exit (st : State) :
  exitRequested (ensureSuperprocess st) = exitRequested st.
Proof. unfold ensureSuperprocess. destruct (superprocess st); reflexivity. Qed.

Lemma waitStart_exit (format : AudioPluginFormat) (file : string)
      (env : Schedule) (st : State) :
  noExit (beforeLock env) = true ->
  exitRequested (waitStart format file env st) = exitRequested st.
Proof.
  intros N. unfold waitStart, clearResponse. cbn [exitRequested set_pluginDescription set_gotResponse].
  rewrite (deliverAll_noExit _ _ N). apply ensureSuperprocess_exit.
Qed.

(** C2, as the code has it. An out-of-process call returns [false], leaves the
    array untouched and the slot empty, the handle it used torn down, in both
    of these cases: the send fails; or the send succeeds, the connection is
    reported lost while the call is waiting, and the host has not asked scans
    to stop by the time the call makes its tests. *)
Theorem worker_failure_releases_and_fails
      (format : AudioPluginFormat) (result : list PluginDescription)
      (file : string) (env : Schedule) (st : State)
      (quiet : list (list Event)) (evs : list Event) (rest : list (list Event)) :
  scanInProcess st = false ->
  sendOk env = false
  \/ (sendOk env = true
      /\ whileWaiting env = quiet ++ evs :: rest
      /\ forallb modeOnly quiet = true
      /\ In (FromWorker ConnectionLost) evs
      /\ exitRequested st = false
      /\ noExit (beforeLock env) = true
      /\ noExit evs = true
      /\ noExit (map FromHost (afterWake env)) = true) ->
  exists st',
    findPluginTypesFor format result file env st = Returned false result st'
    /\ superprocess st' = None
    /\ workerLog st' = sentThenReleased format file st.
Proof.
  intros M [S | (S & W & Q & I & X & Nb & Ne & Na)].
  - rewrite (find_sendFailed _ _ _ _ _ M S).
    eexists; split; [reflexivity |]. split; [apply resetSuperprocess_slot |].
    rewrite (resetSuperprocess_log _ (theWorker st))
      by apply ensureSuperprocess_slot.
    unfold sentThenReleased. cbn. rewrite <- app_assoc. reflexivity.
  - rewrite (find_sent _ _ _ _ _ M S), W.
    destruct (waitStart_handles format file env st) as [P _].
    destruct (wait_until_loss quiet evs rest (waitStart format file env st)
                (theWorker st)) as (w & Ew & Xw & Lw); auto.
    { rewrite waitStart_exit; assumption. }
    rewrite Ew, afterWait_loss.
    + eexists; split; [reflexivity |].
      apply (released_after_wait format file env), (woken_handles _ _ _ _ Ew).
    + rewrite deliverAll_noExit; assumption.
    + apply deliverAll_flags_stay, Lw.
Qed.

(** ** Leaving the wait on a reply *)

Lemma deliverAll_noLoss (evs : list Event) (st : State) :
  noLoss evs = true -> connectionLost (deliverAll st evs) = connectionLost st.
Proof.
  revert st. induction evs as [| e evs IH]; intros st N; [reflexivity |].
  cbn in N. apply andb_true_iff in N as [Ne N].
  cbn [deliverAll fold_left]. fold (deliverAll (deliver st e) evs).
  rewrite (IH _ N). clear IH N.
  event_cases e st; try reflexivity; cbn in *; congruence.
Qed.

Lemma hostOnly_fromHost (hostEvs : list HostEvent) :
  hostOnly (map FromHost hostEvs) = true.
Proof. induction hostEvs; cbn; auto. Qed.

Lemma addDescriptions_spec (items : list XmlElement)
      (result : list PluginDescription) :
  addDescriptions result items = result ++ descriptorsOf items.
Proof.
  unfold addDescriptions. revert result.
  induction items as [| item items IH]; intros result; cbn.
  - symmetry. apply app_nil_r.
  - destruct (loadFromXml item) as [desc |]; rewrite IH; [| reflexivity].
    rewrite <- app_assoc. reflexivity.
Qed.

Lemma descriptorsOf_app (xs ys : list XmlElement) :
  descriptorsOf (xs ++ ys) = descriptorsOf xs ++ descriptorsOf ys.
Proof.
  induction xs as [| x xs IH]; cbn; [reflexivity |].
  destruct (loadFromXml x); rewrite IH; reflexivity.
Qed.

Lemma message_delivered (evs tail : list Event) (mb : MemoryBlock)
      (st : State) (sp : Superprocess) :
  superprocess st = Some sp ->
  noLoss evs = true ->
  modeOnly tail = true ->
  reply (deliverAll st (evs ++ FromWorker (MessageFromWorker mb) :: tail))
  = (parseXML (MemoryBlock_toString mb), true, connectionLost st).
Proof.
  intros P N T. rewrite deliverAll_app.
  change (deliverAll ?a (?e :: tail)) with (deliverAll (deliver a e) tail).
  rewrite (deliverAll_hostOnly tail _ (modeOnly_hostOnly tail T)).
  cbn [deliver]. unfold workerEvent.
  destruct (handles_fields _ _ (deliverAll_handles evs st)) as (-> & _).
  rewrite P. unfold reply, handleMessageFromWorker. cbn.
  rewrite (deliverAll_noLoss evs st N). reflexivity.
Qed.

Lemma reply_is (w : State) (p : option XmlElement) (g l : bool) :
  reply w = (p, g, l) ->
  pluginDescription w = p /\ gotResponse w = g /\ connectionLost w = l.
Proof. unfold reply. intros E. inversion E. auto. Qed.

Lemma noExit_app (xs ys : list Event) :
  noExit (xs ++ ys) = noExit xs && noExit ys.
Proof. apply forallb_app. Qed.

Lemma wait_until_reply (quiet : list (list Event)) (evs tail : list Event)
      (mb : MemoryBlock) (rest : list (list Event))
      (st : State) (sp : Superprocess) :
  gotResponse st = false ->
  exitRequested st = false ->
  superprocess st = Some sp ->
  forallb modeOnly quiet = true ->
  noExit evs = true ->
  noLoss evs = true ->
  modeOnly tail = true ->
  exists w,
    waitForResponse st
      (quiet ++ (evs ++ FromWorker (MessageFromWorker mb) :: tail) :: rest)
    = (true, w)
    /\ exitRequested w = false
    /\ reply w = (parseXML (MemoryBlock_toString mb), true, connectionLost st).
Proof.
  revert st. induction quiet as [| q quiet IH]; intros st G X P Q Ne Nl T;
    cbn; unfold wakePredicate, shouldExit; rewrite G, X; cbn.
  - set (w := deliverAll st _).
    pose proof (message_delivered evs tail mb st sp P Nl T) as R. fold w in R.
    destruct (reply_is _ _ _ _ R) as (_ & Gw & _).
    exists w. split; [| split; [| exact R]].
    + destruct rest; cbn; unfold wakePredicate; rewrite Gw; reflexivity.
    + subst w. rewrite deliverAll_noExit; [exact X |].
      rewrite noExit_app, Ne. cbn. apply modeOnly_noExit, T.
  - cbn in Q. apply andb_true_iff in Q as [Qq Q].
    destruct (modeOnly_keeps_waiting q st Qq) as (G' & X' & L' & P').
    rewrite <- L'. apply IH; congruence.
Qed.

Lemma afterWait_reply (result : list PluginDescription) (w : State)
      (mb : MemoryBlock) :
  exitRequested w = false ->
  reply w = (parseXML (MemoryBlock_toString mb), true, false) ->
  afterWait result w = Returned true (result ++ replyDescriptors mb) w.
Proof.
  intros X R. destruct (reply_is _ _ _ _ R) as (D & _ & L).
  unfold afterWait, shouldExit, replyDescriptors. rewrite X, L, D.
  destruct (parseXML _); [rewrite addDescriptions_spec | rewrite app_nil_r];
    reflexivity.
Qed.

Lemma waitStart_connectionLost (format : AudioPluginFormat) (file : string)
      (env : Schedule) (st : State) :
  noLoss (beforeLock env) = true ->
  superprocess st = None \/ connectionLost st = false ->
  connectionLost (waitStart format file env st) = false.
Proof.
  intros N C. unfold waitStart, clearResponse.
  cbn [connectionLost set_pluginDescription set_gotResponse].
  rewrite (deliverAll_noLoss _ _ N). unfold ensureSuperprocess.
  destruct (superprocess st); cbn; [| reflexivity].
  destruct C as [C | C]; [discriminate | exact C].
Qed.

(** X18. An out-of-process call whose request went out, that is not asked to
    stop and sees no connection loss, and for which the reply [mb] comes
    while the call is waiting, the last thing from the worker before it
    wakes, returns [true] with exactly the descriptors of [mb] added to the
    array, in order, and the handle it used still in the slot and not torn
    down. A reply that does not
    parse, or has no children, adds nothing; a child that does not load is
    left out and the others are kept. *)
Theorem reply_is_decoded_and_worker_kept
      (format : AudioPluginFormat) (result : list PluginDescription)
      (file : string) (env : Schedule) (st : State)
      (quiet : list (list Event)) (evs tail : list Event) (mb : MemoryBlock)
      (rest : list (list Event)) :
  scanInProcess st = false ->
  sendOk env = true ->
  whileWaiting env
  = quiet ++ (evs ++ FromWorker (MessageFromWorker mb) :: tail) :: rest ->
  forallb modeOnly quiet = true ->
  modeOnly tail = true ->
  exitRequested st = false ->
  noExit (beforeLock env) = true ->
  noExit evs = true ->
  noExit (map FromHost (afterWake env)) = true ->
  superprocess st = None \/ connectionLost st = false ->
  noLoss (beforeLock env) = true ->
  noLoss evs = true ->
  (exists st',
     findPluginTypesFor format result file env st
     = Returned true (result ++ replyDescriptors mb) st'
     /\ superprocess st' = Some (theWorker st)
     /\ workerLog st'
        = workerLog (ensureSuperprocess st)
            ++ [Send (workerId (theWorker st)) (requestBlock format file)])
  /\ (parseXML (MemoryBlock_toString mb) = None -> replyDescriptors mb = [])
  /\ (forall xml, parseXML (MemoryBlock_toString mb) = Some xml ->
        replyDescriptors mb = descriptorsOf (getChildIterator xml)
        /\ (getChildIterator xml = [] -> replyDescriptors mb = [])
        /\ (forall before bad after,
              getChildIterator xml = before ++ bad :: after ->
              loadFromXml bad = None ->
              replyDescriptors mb = descriptorsOf before ++ descriptorsOf after)).
Proof.
  intros M S W Q T X Xb Xe Xa C Lb Le. split; [| split].
  - rewrite (find_sent _ _ _ _ _ M S), W.
    destruct (waitStart_handles format file env st) as [P Lg].
    destruct (wait_until_reply quiet evs tail mb rest
                (waitStart format file env st) (theWorker st))
      as (w & Ew & Xw & Rw); auto.
    { rewrite waitStart_exit; assumption. }
    rewrite (waitStart_connectionLost _ _ _ _ Lb C) in Rw.
    rewrite Ew. set (w' := deliverAll w _).
    assert (Rw' : reply w' = reply w)
      by apply deliverAll_hostOnly, hostOnly_fromHost.
    assert (Xw' : exitRequested w' = false)
      by (subst w'; rewrite deliverAll_noExit; assumption).
    rewrite (afterWait_reply result w' mb Xw') by congruence.
    exists w'. split; [reflexivity |].
    destruct (handles_fields _ _ (deliverAll_handles (map FromHost (afterWake env)) w))
      as (E1 & E2 & _).
    destruct (handles_fields _ _ (woken_handles _ _ _ _ Ew)) as (F1 & F2 & _).
    subst w'. split; congruence.
  - unfold replyDescriptors. intros ->. reflexivity.
  - unfold replyDescriptors. intros xml ->. split; [reflexivity |].
    split; [intros ->; reflexivity |].
    intros before bad after -> B. rewrite descriptorsOf_app. cbn.
    rewrite B. reflexivity.
Qed.

(** ** One worker at a time *)

Lemma liveWorkers_snoc (log : list WorkerOp) (op : WorkerOp) :
  liveWorkers (log ++ [op]) = applyOp (liveWorkers log) op.
Proof. unfold liveWorkers. rewrite fold_left_app. reflexivity. Qed.

Lemma oneAtATime_nil : oneAtATime [].
Proof.
  split.
  - intros n. rewrite firstn_nil. cbn. lia.
  - intros [| x before] id after E; discriminate.
Qed.

Lemma oneAtATime_snoc (log : list WorkerOp) (op : WorkerOp) :
  oneAtATime log ->
  length (applyOp (liveWorkers log) op) <= 1 ->
  (forall id, op = Launch id -> liveWorkers log = []) ->
  oneAtATime (log ++ [op]).
Proof.
  intros [Hn Hl] Hlen Hop. split.
  - intros n. destruct (Nat.le_gt_cases n (length log)) as [Le | Gt].
    + rewrite firstn_app. replace (n - length log)%nat with 0%nat by lia.
      cbn. rewrite app_nil_r. apply Hn.
    + rewrite firstn_all2 by (rewrite length_app; cbn; lia).
      rewrite liveWorkers_snoc. exact Hlen.
  - intros before id after E.
    destruct after as [| x after] using rev_ind.
    + apply app_inj_tail in E as [-> ->]. apply (Hop id). reflexivity.
    + clear IHafter.
      change (before ++ Launch id :: after ++ [x])
        with (before ++ (Launch id :: after) ++ [x]) in E.
      rewrite app_assoc in E. apply app_inj_tail in E as [-> _].
      apply (Hl before id after). reflexivity.
Qed.

Lemma wellKept_same_handles (a b : State) :
  handles a = handles b -> wellKept b -> wellKept a.
Proof.
  intros E [O T]. destruct (handles_fields _ _ E) as (E1 & E2 & _).
  unfold wellKept, tidy, slot. rewrite E1, E2. split; assumption.
Qed.

Lemma wellKept_reset (st : State) : wellKept st -> wellKept (resetSuperprocess st).
Proof.
  intros [O T]. unfold resetSuperprocess.
  destruct (superprocess st) as [sp |] eqn:P; [| split; assumption].
  unfold tidy, slot in T. rewrite P in T.
  assert (L : applyOp (liveWorkers (workerLog st)) (Teardown (workerId sp)) = []).
  { rewrite T. cbn. rewrite Nat.eqb_refl. reflexivity. }
  split.
  - fields. apply oneAtATime_snoc; [exact O | rewrite L; cbn; lia | discriminate].
  - unfold tidy, slot. fields. rewrite liveWorkers_snoc. exact L.
Qed.

Lemma wellKept_ensure (st : State) : wellKept st -> wellKept (ensureSuperprocess st).
Proof.
  intros [O T]. unfold ensureSuperprocess.
  destruct (superprocess st) as [sp |] eqn:P; [split; assumption |].
  unfold tidy, slot in T. rewrite P in T.
  split.
  - fields. apply oneAtATime_snoc; [exact O | rewrite T; cbn; lia | auto].
  - unfold tidy, slot. fields. rewrite liveWorkers_snoc, T. reflexivity.
Qed.

Lemma wellKept_send (st : State) (id : nat) (block : MemoryBlock) :
  wellKept st -> wellKept (logOp (Send id block) false st).
Proof.
  intros [O T]. unfold tidy, slot in T.
  split.
  - fields. apply oneAtATime_snoc; [exact O | | discriminate].
    cbn. rewrite T. destruct (superprocess st); cbn; lia.
  - unfold tidy, slot. fields. rewrite liveWorkers_snoc. exact T.
Qed.

Lemma wellKept_afterWait (result : list PluginDescription) (w : State) :
  wellKept w -> wellKept (stateOf (afterWait result w)).
Proof.
  intros K. unfold afterWait.
  destruct (shouldExit w); [apply wellKept_reset, K |].
  destruct (connectionLost w); [apply wellKept_reset, K |].
  destruct (pluginDescription w); exact K.
Qed.

Lemma wellKept_waitStart (format : AudioPluginFormat) (file : string)
      (env : Schedule) (st : State) :
  wellKept st -> wellKept (waitStart format file env st).
Proof.
  intros K.
  apply (wellKept_same_handles _
           (logOp (Send (workerId (theWorker st)) (requestBlock format file))
                  false (ensureSuperprocess st))).
  - rewrite <- (deliverAll_handles (beforeLock env)
                  (logOp (Send (workerId (theWorker st)) (requestBlock format file))
                         false (ensureSuperprocess st))).
    reflexivity.
  - apply wellKept_send, wellKept_ensure, K.
Qed.

Lemma wellKept_find (format : AudioPluginFormat)
      (result : list PluginDescription) (file : string)
      (env : Schedule) (st : State) :
  wellKept st -> wellKept (stateOf (findPluginTypesFor format result file env st)).
Proof.
  intros K. destruct (scanInProcess st) eqn:M.
  - rewrite (find_inProcess _ _ _ _ _ M). apply wellKept_reset, K.
  - destruct (sendOk env) eqn:S.
    + rewrite (find_sent _ _ _ _ _ M S).
      destruct (waitForResponse _ _) as [[|] w] eqn:E.
      * apply wellKept_afterWait.
        eapply wellKept_same_handles; [apply deliverAll_handles |].
        eapply wellKept_same_handles; [apply (woken_handles _ _ _ _ E) |].
        apply wellKept_waitStart, K.
      * eapply wellKept_same_handles; [apply (woken_handles _ _ _ _ E) |].
        apply wellKept_waitStart, K.
    + rewrite (find_sendFailed _ _ _ _ _ M S).
      apply wellKept_reset, wellKept_send, wellKept_ensure, K.
Qed.

Lemma wellKept_runCalls (calls : list Call) (st : State) :
  wellKept st -> wellKept (runCalls calls st).
Proof.
  revert st. induction calls as [| c calls IH]; intros st K; [exact K |].
  destruct c as [format result file env | | evs]; cbn [runCalls].
  - pose proof (wellKept_find format result file env st K) as K'.
    destruct (findPluginTypesFor format result file env st); [apply IH |]; exact K'.
  - apply IH, wellKept_reset, K.
  - apply IH. eapply wellKept_same_handles; [apply deliverAll_handles | exact K].
Qed.

Lemma wellKept_newScanner (settings : option (gmap string Z)) :
  wellKept (newScanner settings).
Proof.
  unfold newScanner, changeListenerCallback, initialScanner.
  destruct settings; split; cbn; try apply oneAtATime_nil; reflexivity.
Qed.

(** C5. Whatever calls are made on a new scanner, with whatever happens on
    the other threads during and between them, the log of handle operations
    never has two handles alive: after every number of operations at most one
    is, every launch is made when none is, and at the end the handles alive
    are the one in the scanner's slot (none when it is empty). *)
Theorem at_most_one_worker
      (settings : option (gmap string Z)) (calls : list Call) :
  let final := runCalls calls (newScanner settings) in
  (forall n, length (liveWorkers (firstn n (workerLog final))) <= 1)
  /\ (forall before id after,
        workerLog final = before ++ Launch id :: after ->
        liveWorkers before = [])
  /\ liveWorkers (workerLog final)
     = match superprocess final with
       | Some sp => [workerId sp]
       | None => []
       end.
Proof.
  intros final.
  destruct (wellKept_runCalls calls _ (wellKept_newScanner settings))
    as [[Hn Hl] T].
  split; [exact Hn |]. split; [exact Hl | exact T].
Qed.

(** ** The request on the wire *)

Lemma sentBlocks_app (a b : list WorkerOp) :
  sentBlocks (a ++ b) = sentBlocks a ++ sentBlocks b.
Proof.
  induction a as [| [id | id block | id] a IH]; cbn; rewrite ?IH; reflexivity.
Qed.

Lemma resetSuperprocess_sent (st : State) :
  sentBlocks (workerLog (resetSuperprocess st)) = sentBlocks (workerLog st).
Proof.
  unfold resetSuperprocess. destruct (superprocess st); [| reflexivity].
  fields. rewrite sentBlocks_app. cbn. apply app_nil_r.
Qed.

Lemma ensureSuperprocess_sent (st : State) :
  sentBlocks (workerLog (ensureSuperprocess st)) = sentBlocks (workerLog st).
Proof.
  unfold ensureSuperprocess. destruct (superprocess st); [reflexivity |].
  fields. rewrite sentBlocks_app. cbn. apply app_nil_r.
Qed.

Lemma waitStart_sent (format : AudioPluginFormat) (file : string)
      (env : Schedule) (st : State) :
  sentBlocks (workerLog (waitStart format file env st))
  = sentBlocks (workerLog st) ++ [requestBlock format file].
Proof.
  destruct (waitStart_handles format file env st) as [_ ->].
  rewrite sentBlocks_app, ensureSuperprocess_sent. reflexivity.
Qed.

Lemma afterWait_sent (result : list PluginDescription) (w : State) :
  sentBlocks (workerLog (stateOf (afterWait result w))) = sentBlocks (workerLog w).
Proof.
  unfold afterWait.
  destruct (shouldExit w); [apply resetSuperprocess_sent |].
  destruct (connectionLost w); [apply resetSuperprocess_sent |].
  destruct (pluginDescription w); reflexivity.
Qed.

Lemma byteOfN_to_N (n : N) : Byte.to_N (byteOfN n) = (n mod 256)%N.
Proof.
  unfold byteOfN. destruct (Byte.of_N (n mod 256)) as [b |] eqn:E.
  - apply Byte.to_of_N, E.
  - apply Byte.of_N_None_iff in E.
    pose proof (N.mod_upper_bound n 256). lia.
Qed.

Lemma readUint32_uint32 (n : N) : readUint32 (uint32 n) = Some (n mod 4294967296)%N.
Proof.
  unfold readUint32, uint32. rewrite !byteOfN_to_N. f_equal.
  set (m := (n mod 4294967296)%N).
  assert (B : (m < 4294967296)%N) by (apply N.mod_upper_bound; discriminate).
  clearbody m.
  pose proof (N.div_mod m 256). pose proof (N.div_mod (m / 256) 256).
  pose proof (N.div_mod (m / 65536) 256).
  replace (m / 65536)%N with (m / 256 / 256)%N in *
    by (rewrite N.Div0.div_div; reflexivity).
  replace (m / 16777216)%N with (m / 256 / 256 / 256)%N
    by (rewrite !N.Div0.div_div; reflexivity).
  assert ((m / 256 / 256 / 256) mod 256 = m / 256 / 256 / 256)%N.
  { apply N.mod_small. rewrite !N.Div0.div_div.
    apply N.Div0.div_lt_upper_bound. exact B. }
  lia.
Qed.

Lemma find_sentBlocks (format : AudioPluginFormat)
      (result : list PluginDescription) (file : string)
      (env : Schedule) (st : State) :
  sentBlocks (workerLog (stateOf (findPluginTypesFor format result file env st)))
  = sentBlocks (workerLog st)
      ++ (if scanInProcess st then [] else [requestBlock format file]).
Proof.
  destruct (scanInProcess st) eqn:M.
  - rewrite (find_inProcess _ _ _ _ _ M). cbn [stateOf].
    rewrite resetSuperprocess_sent, app_nil_r. reflexivity.
  - destruct (sendOk env) eqn:S.
    + rewrite (find_sent _ _ _ _ _ M S).
      destruct (waitForResponse _ _) as [[|] w] eqn:E.
      * rewrite afterWait_sent.
        destruct (handles_fields _ _ (deliverAll_handles (map FromHost (afterWake env)) w))
          as (_ & -> & _).
        destruct (handles_fields _ _ (woken_handles _ _ _ _ E)) as (_ & -> & _).
        apply waitStart_sent.
      * cbn [stateOf].
        destruct (handles_fields _ _ (woken_handles _ _ _ _ E)) as (_ & -> & _).
        apply waitStart_sent.
    + rewrite (find_sendFailed _ _ _ _ _ M S). cbn [stateOf].
      rewrite resetSuperprocess_sent. fields.
      rewrite sentBlocks_app, ensureSuperprocess_sent. reflexivity.
Qed.

(** C8. Every call that goes to the worker hands [sendMessageToWorker] one
    block, and that block is: the byte count of the format name as a [uint32],
    the UTF-8 bytes of the format name, the byte count of the file or
    identifier as a [uint32], and its UTF-8 bytes, in this order. Each count
    is four bytes and reads back as the byte count (which wraps at [2^32]).
    A call in in-process mode sends nothing. *)
Theorem request_is_two_length_prefixed_strings
      (format : AudioPluginFormat) (result : list PluginDescription)
      (file : string) (env : Schedule) (st : State) :
  let name := toRawUTF8 (getName format) in
  let path := toRawUTF8 file in
  let nameLength := uint32 (N.of_nat (length name)) in
  let pathLength := uint32 (N.of_nat (length path)) in
  sentBlocks (workerLog (stateOf (findPluginTypesFor format result file env st)))
  = sentBlocks (workerLog st)
      ++ (if scanInProcess st then []
          else [nameLength ++ name ++ pathLength ++ path])
  /\ length nameLength = 4
  /\ length pathLength = 4
  /\ readUint32 nameLength = Some (N.of_nat (length name) mod 4294967296)%N
  /\ readUint32 pathLength = Some (N.of_nat (length path) mod 4294967296)%N.
Proof.
  intros name path nameLength pathLength.
  split; [| repeat split; apply readUint32_uint32].
  assert (B : requestBlock format file = nameLength ++ name ++ pathLength ++ path).
  { unfold requestBlock, writeString. cbn [app]. rewrite <- !app_assoc. reflexivity. }
  rewrite <- B. apply find_sentBlocks.
Qed.

(** ** The default mode *)

(** C10. The mode flag of a scanner starts as in-process; every change
    message sets it to whether the integer stored under [pluginScanMode] is
    0 (and leaves it alone when there is no settings file); a key that is not
    stored reads as 0. So a new scanner is in out-of-process mode exactly
    when there is a settings file that stores a value other than 0 under the
    key. *)
Theorem scan_mode_defaults_to_in_process (settings : option (gmap string Z)) :
  scanInProcess (initialScanner settings) = true
  /\ (forall (st : State) (file : gmap string Z),
        userSettings st = Some file ->
        scanInProcess (changeListenerCallback st)
        = (getIntValue file scanModeKey =? 0)%Z)
  /\ (forall st : State,
        userSettings st = None -> changeListenerCallback st = st)
  /\ (forall file : gmap string Z,
        file !! scanModeKey = None -> getIntValue file scanModeKey = 0%Z)
  /\ (scanInProcess (newScanner settings) = false
      <-> exists (file : gmap string Z) (v : Z),
            settings = Some file /\ file !! scanModeKey = Some v /\ v <> 0%Z).
Proof.
  split; [reflexivity |].
  split; [intros st file E; unfold changeListenerCallback; rewrite E; reflexivity |].
  split; [intros st E; unfold changeListenerCallback; rewrite E; reflexivity |].
  split; [intros file E; unfold getIntValue; rewrite E; reflexivity |].
  unfold newScanner, changeListenerCallback, initialScanner. cbn.
  destruct settings as [file |]; cbn; unfold getIntValue.
  - destruct (file !! scanModeKey) as [v |] eqn:E; split.
    + intros Z0. exists file, v. repeat split; auto. intros ->. discriminate.
    + intros (f & v' & [= <-] & Ev & Nz). rewrite E in Ev. injection Ev as ->.
      apply Z.eqb_neq, Nz.
    + discriminate.
    + intros (f & v' & [= <-] & Ev & _). congruence.
  - split; [discriminate | intros (f & v & X & _); discriminate].
Qed.

(** ** A stored reply is not seen again *)

Ltac split_matches :=
  repeat match goal with
         | |- context [match ?x with _ => _ end] => destruct x
         end.

Lemma deliver_clearResponse (a b : State) (e : Event) :
  clearResponse a = clearResponse b ->
  clearResponse (deliver a e) = clearResponse (deliver b e).
Proof.
  destruct a, b. unfold clearResponse. cbn. intros [= -> -> -> -> -> -> ->].
  destruct e as [[| k v |] | [mb |]]; cbn;
    unfold changeListenerCallback, workerEvent; cbn; split_matches; reflexivity.
Qed.

Lemma deliverAll_clearResponse (evs : list Event) (a b : State) :
  clearResponse a = clearResponse b ->
  clearResponse (deliverAll a evs) = clearResponse (deliverAll b evs).
Proof.
  revert a b. induction evs as [| e evs IH]; intros a b E; [exact E |].
  apply (IH (deliver a e) (deliver b e)), deliver_clearResponse, E.
Qed.

Lemma clearResponse_idem (st : State) :
  clearResponse (clearResponse st) = clearResponse st.
Proof. reflexivity. Qed.

Lemma resetSuperprocess_clearResponse (a b : State) :
  clearResponse a = clearResponse b ->
  clearResponse (resetSuperprocess a) = clearResponse (resetSuperprocess b).
Proof.
  destruct a, b. unfold clearResponse. cbn. intros [= -> -> -> -> -> -> ->].
  unfold resetSuperprocess. cbn. split_matches; reflexivity.
Qed.

Lemma sent_clearResponse (format : AudioPluginFormat) (file : string) (st : State) :
  clearResponse
    (logOp (Send (workerId (theWorker st)) (requestBlock format file)) false
           (ensureSuperprocess st))
  = clearResponse
      (logOp (Send (workerId (theWorker (clearResponse st)))
                   (requestBlock format file)) false
             (ensureSuperprocess (clearResponse st))).
Proof.
  destruct st. unfold theWorker, ensureSuperprocess, clearResponse. cbn.
  split_matches; reflexivity.
Qed.

Lemma waitStart_clearResponse (format : AudioPluginFormat) (file : string)
      (env : Schedule) (st : State) :
  waitStart format file env st = waitStart format file env (clearResponse st).
Proof.
  unfold waitStart. cbv zeta.
  apply (deliverAll_clearResponse (beforeLock env)), sent_clearResponse.
Qed.

(** C7. Whatever reply the scanner still holds from an earlier call, a call
    that goes to the worker starts its wait with [gotResponse] false and no
    stored payload, and it runs exactly as it would had the stored reply been
    discarded before the call: same return value, same array, same state when
    it returns or while it waits. A call that does not get to wait (the send
    fails, or the mode is in-process) returns the same flag and array, and
    the same state but for the stored reply, which it neither reads nor
    clears. *)
Theorem stored_reply_is_never_replayed
      (format : AudioPluginFormat) (result : list PluginDescription)
      (file : string) (env : Schedule) (st : State) :
  (gotResponse (waitStart format file env st) = false
   /\ pluginDescription (waitStart format file env st) = None)
  /\ (scanInProcess st = false -> sendOk env = true ->
      findPluginTypesFor format result file env st
      = findPluginTypesFor format result file env (clearResponse st))
  /\ forgetReplyOf (findPluginTypesFor format result file env st)
     = forgetReplyOf (findPluginTypesFor format result file env (clearResponse st)).
Proof.
  split; [apply waitStart_reply |].
  assert (Sent : scanInProcess st = false -> sendOk env = true ->
                 findPluginTypesFor format result file env st
                 = findPluginTypesFor format result file env (clearResponse st)).
  { intros M S. rewrite (find_sent _ _ _ _ _ M S).
    rewrite (find_sent _ _ _ _ (clearResponse st) M S).
    rewrite <- waitStart_clearResponse. reflexivity. }
  split; [exact Sent |].
  destruct (scanInProcess st) eqn:M.
  - rewrite (find_inProcess _ _ _ _ st M).
    rewrite (find_inProcess _ _ _ _ (clearResponse st) M).
    cbn [forgetReplyOf]. f_equal.
    apply resetSuperprocess_clearResponse. reflexivity.
  - destruct (sendOk env) eqn:S; [rewrite Sent; reflexivity |].
    rewrite (find_sendFailed _ _ _ _ st M S).
    rewrite (find_sendFailed _ _ _ _ (clearResponse st) M S).
    cbn [forgetReplyOf]. f_equal.
    apply resetSuperprocess_clearResponse, sent_clearResponse.
Qed.

(** ** The mode is read when the call starts *)

Lemma deliver_forgetMode (a b : State) (e : Event) :
  forgetMode a = forgetMode b ->
  forgetMode (deliver a e)
  = forgetMode (if isModeEvent e then b else deliver b e).
Proof.
  destruct a, b. unfold forgetMode. cbn. intros [= -> -> -> -> -> -> ->].
  destruct e as [[| k v |] | [mb |]]; cbn;
    unfold changeListenerCallback, workerEvent; cbn; split_matches; reflexivity.
Qed.

Lemma deliverAll_forgetMode (evs : list Event) (a b : State) :
  forgetMode a = forgetMode b ->
  forgetMode (deliverAll a evs) = forgetMode (deliverAll b (withoutModeEvents evs)).
Proof.
  revert a b. induction evs as [| e evs IH]; intros a b E; [exact E |].
  pose proof (deliver_forgetMode a b e E) as D.
  change (deliverAll a (e :: evs)) with (deliverAll (deliver a e) evs).
  unfold withoutModeEvents. cbn [List.filter].
  destruct (isModeEvent e); cbn [negb]; apply IH, D.
Qed.

Lemma wakePredicate_forgetMode (a b : State) :
  forgetMode a = forgetMode b -> wakePredicate a = wakePredicate b.
Proof.
  destruct a, b. unfold forgetMode. cbn. intros [= -> -> -> -> -> -> ->].
  reflexivity.
Qed.

Lemma wait_forgetMode (intervals : list (list Event)) (a b : State) :
  forgetMode a = forgetMode b ->
  fst (waitForResponse a intervals)
  = fst (waitForResponse b (map withoutModeEvents intervals))
  /\ forgetMode (snd (waitForResponse a intervals))
     = forgetMode (snd (waitForResponse b (map withoutModeEvents intervals))).
Proof.
  revert a b. induction intervals as [| evs rest IH]; intros a b E;
    cbn [waitForResponse map]; rewrite (wakePredicate_forgetMode a b E);
    destruct (wakePredicate b); cbn [fst snd]; auto.
  apply IH, deliverAll_forgetMode, E.
Qed.

Lemma resetSuperprocess_forgetMode (a b : State) :
  forgetMode a = forgetMode b ->
  forgetMode (resetSuperprocess a) = forgetMode (resetSuperprocess b).
Proof.
  destruct a, b. unfold forgetMode. cbn. intros [= -> -> -> -> -> -> ->].
  unfold resetSuperprocess. cbn. split_matches; reflexivity.
Qed.

Lemma afterWait_forgetMode (result : list PluginDescription) (a b : State) :
  forgetMode a = forgetMode b ->
  forgetModeOf (afterWait result a) = forgetModeOf (afterWait result b).
Proof.
  intros E. pose proof (resetSuperprocess_forgetMode a b E) as R.
  destruct a, b. unfold forgetMode in *. cbn in E. injection E as -> -> -> -> -> -> ->.
  unfold afterWait, shouldExit. cbn in *. split_matches; cbn; f_equal; exact R.
Qed.

Lemma withoutModeEvents_fromHost (hostEvs : list HostEvent) :
  map FromHost (List.filter (fun e => negb (isModeEvent (FromHost e))) hostEvs)
  = withoutModeEvents (map FromHost hostEvs).
Proof.
  unfold withoutModeEvents. induction hostEvs as [| e l IH]; [reflexivity |].
  destruct e; cbn; try f_equal; exact IH.
Qed.

Lemma waitStart_forgetMode (format : AudioPluginFormat) (file : string)
      (env : Schedule) (st : State) :
  forgetMode (waitStart format file env st)
  = forgetMode (waitStart format file (withoutModeChanges env) st).
Proof.
  unfold waitStart. cbv zeta. cbn [beforeLock withoutModeChanges].
  set (sent := logOp _ _ _).
  pose proof (deliverAll_forgetMode (beforeLock env) sent sent eq_refl) as D.
  revert D. generalize (deliverAll sent (beforeLock env)).
  generalize (deliverAll sent (withoutModeEvents (beforeLock env))).
  intros a b. destruct a, b. unfold forgetMode, clearResponse. cbn.
  intros [= -> -> -> -> -> -> ->]. reflexivity.
Qed.

(** What a call does to the mode is what the events it lives through do. *)

Lemma deliver_modePart (a b : State) (e : Event) :
  modePart a = modePart b -> modePart (deliver a e) = modePart (deliver b e).
Proof.
  destruct a, b. unfold modePart. cbn. intros [= -> ->].
  destruct e as [[| k v |] | [mb |]]; cbn;
    unfold changeListenerCallback, workerEvent; cbn; split_matches; reflexivity.
Qed.

Lemma deliverAll_modePart (evs : list Event) (a b : State) :
  modePart a = modePart b -> modePart (deliverAll a evs) = modePart (deliverAll b evs).
Proof.
  revert a b. induction evs as [| e evs IH]; intros a b E; [exact E |].
  apply (IH (deliver a e) (deliver b e)), deliver_modePart, E.
Qed.

Lemma wait_is_waited (intervals : list (list Event)) (st : State) :
  snd (waitForResponse st intervals) = deliverAll st (waited st intervals).
Proof.
  revert st. induction intervals as [| evs rest IH]; intros st;
    cbn [waitForResponse waited]; destruct (wakePredicate st); try reflexivity.
  rewrite deliverAll_app. apply IH.
Qed.

Lemma resetSuperprocess_modePart (st : State) :
  modePart (resetSuperprocess st) = modePart st.
Proof. unfold resetSuperprocess. destruct (superprocess st); reflexivity. Qed.

Lemma afterWait_modePart (result : list PluginDescription) (w : State) :
  modePart (stateOf (afterWait result w)) = modePart w.
Proof.
  unfold afterWait.
  destruct (shouldExit w); [apply resetSuperprocess_modePart |].
  destruct (connectionLost w); [apply resetSuperprocess_modePart |].
  destruct (pluginDescription w); reflexivity.
Qed.

Lemma sent_modePart (format : AudioPluginFormat) (file : string) (st : State) :
  modePart (logOp (Send (workerId (theWorker st)) (requestBlock format file))
                  false (ensureSuperprocess st))
  = modePart st.
Proof. unfold ensureSuperprocess. destruct (superprocess st); reflexivity. Qed.

Lemma waitStart_modePart (format : AudioPluginFormat) (file : string)
      (env : Schedule) (st : State) :
  modePart (waitStart format file env st) = modePart (deliverAll st (beforeLock env)).
Proof.
  unfold waitStart. cbv zeta.
  change (modePart (clearResponse ?x)) with (modePart x).
  apply deliverAll_modePart, sent_modePart.
Qed.

(** C6. A call decides between the two paths on the mode flag it finds when
    it starts. Settings changes and change messages that happen while it runs
    change nothing of what it returns, adds to the array or does to its
    worker: the outcome is that of the same call under the same schedule
    without them, up to the mode flag and the settings. What they change is
    the flag the call leaves behind, which is the flag as the events the call
    lived through set it; a following call decides on that flag. *)
Theorem mode_is_read_once_at_call_start
      (format : AudioPluginFormat) (result : list PluginDescription)
      (file : string) (env : Schedule) (st : State) :
  let outcome := findPluginTypesFor format result file env st in
  forgetModeOf outcome
  = forgetModeOf
      (findPluginTypesFor format result file (withoutModeChanges env) st)
  /\ modePart (stateOf outcome)
     = modePart (deliverAll st (eventsDuring format file env st))
  /\ (forall (format' : AudioPluginFormat) (result' : list PluginDescription)
             (file' : string) (env' : Schedule),
        let next := findPluginTypesFor format' result' file' env' (stateOf outcome) in
        (scanInProcess (stateOf outcome) = true ->
         next = Returned true (findAllTypesForFile format' result' file')
                         (resetSuperprocess (stateOf outcome)))
        /\ (scanInProcess (stateOf outcome) = false ->
            sentBlocks (workerLog (stateOf next))
            = sentBlocks (workerLog (stateOf outcome))
                ++ [requestBlock format' file'])).
Proof.
  intros outcome. subst outcome. split; [| split].
  - destruct (scanInProcess st) eqn:M.
    + rewrite !(find_inProcess _ _ _ _ _ M). reflexivity.
    + destruct (sendOk env) eqn:S.
      * rewrite (find_sent _ _ _ env _ M S).
        rewrite (find_sent _ _ _ (withoutModeChanges env) _ M S).
        pose proof (waitStart_forgetMode format file env st) as W.
        destruct (wait_forgetMode (whileWaiting env) _ _ W) as [F Sn].
        cbn [whileWaiting afterWake withoutModeChanges].
        destruct (waitForResponse (waitStart format file env st) _) as [ba wa].
        destruct (waitForResponse (waitStart format file (withoutModeChanges env) st) _)
          as [bb wb].
        cbn [fst snd] in F, Sn. subst bb. destruct ba.
        -- apply afterWait_forgetMode. rewrite withoutModeEvents_fromHost.
           apply deliverAll_forgetMode, Sn.
        -- cbn [forgetModeOf]. f_equal. exact Sn.
      * rewrite !(find_sendFailed _ _ _ _ _ M) by exact S. reflexivity.
  - unfold eventsDuring. destruct (scanInProcess st) eqn:M.
    + rewrite (find_inProcess _ _ _ _ _ M). apply resetSuperprocess_modePart.
    + destruct (sendOk env) eqn:S.
      * rewrite (find_sent _ _ _ _ _ M S). cbv zeta.
        pose proof (wait_is_waited (whileWaiting env) (waitStart format file env st))
          as Wd.
        destruct (waitForResponse _ _) as [[|] w]; cbn [fst snd] in *; subst w.
        -- rewrite afterWait_modePart, !deliverAll_app.
           apply deliverAll_modePart, deliverAll_modePart, waitStart_modePart.
        -- cbn [stateOf]. rewrite app_nil_r, deliverAll_app.
           apply deliverAll_modePart, waitStart_modePart.
      * rewrite (find_sendFailed _ _ _ _ _ M S). cbn [stateOf].
        rewrite resetSuperprocess_modePart. apply sent_modePart.
  - intros format' result' file' env' next. subst next. split; intros M'.
    + apply find_inProcess, M'.
    + rewrite find_sentBlocks, M'. reflexivity.
Qed.

(** ** How a call can end *)

Lemma wake_means_predicate (intervals : list (list Event)) (st w : State) :
  waitForResponse st intervals = (true, w) -> wakePredicate w = true.
Proof.
  revert st. induction intervals as [| evs rest IH]; intros st;
    cbn [waitForResponse]; destruct (wakePredicate st) eqn:P.
  - intros [= <-]. exact P.
  - discriminate.
  - intros [= <-]. exact P.
  - apply IH.
Qed.

Lemma afterWait_inv (result r : list PluginDescription) (w st' : State) (ok : bool) :
  afterWait result w = Returned ok r st' ->
  (exitRequested w = true /\ ok = true /\ r = result
   /\ st' = resetSuperprocess w)
  \/ (exitRequested w = false /\ connectionLost w = true /\ ok = false
      /\ r = result /\ st' = resetSuperprocess w)
  \/ (exitRequested w = false /\ connectionLost w = false /\ ok = true
      /\ r = result ++ storedDescriptors w /\ st' = w).
Proof.
  unfold afterWait, shouldExit, storedDescriptors.
  destruct (exitRequested w); [intros E; inversion E; subst; auto |].
  destruct (connectionLost w);
    [intros E; inversion E; subst; right; left; auto |].
  intros E. right; right.
  destruct (pluginDescription w) as [xml |]; inversion E; subst.
  - rewrite addDescriptions_spec. auto.
  - rewrite app_nil_r. auto.
Qed.

Lemma find_returned_inv (format : AudioPluginFormat)
      (result r : list PluginDescription) (file : string)
      (env : Schedule) (st st' : State) (ok : bool) :
  scanInProcess st = false ->
  findPluginTypesFor format result file env st = Returned ok r st' ->
  (sendOk env = false /\ ok = false /\ r = result
   /\ superprocess st' = None)
  \/ (sendOk env = true
      /\ exists woke w,
           waitForResponse (waitStart format file env st) (whileWaiting env)
           = (true, woke)
           /\ w = deliverAll woke (map FromHost (afterWake env))
           /\ afterWait result w = Returned ok r st').
Proof.
  intros M E. destruct (sendOk env) eqn:S.
  - right. split; [reflexivity |].
    rewrite (find_sent _ _ _ _ _ M S) in E.
    destruct (waitForResponse _ _) as [[|] woke]; [| discriminate].
    exists woke, (deliverAll woke (map FromHost (afterWake env))). auto.
  - left. rewrite (find_sendFailed _ _ _ _ _ M S) in E.
    inversion E; subst. repeat split. apply resetSuperprocess_slot.
Qed.

(** The handle and the flags when a call makes its tests after the wait. *)
Lemma at_the_tests (format : AudioPluginFormat) (file : string)
      (env : Schedule) (st woke : State) :
  waitForResponse (waitStart format file env st) (whileWaiting env) = (true, woke) ->
  let w := deliverAll woke (map FromHost (afterWake env)) in
  superprocess w = Some (theWorker st)
  /\ reply w = reply woke
  /\ (exitRequested w = false -> gotResponse w = true).
Proof.
  intros E w. subst w.
  destruct (handles_fields _ _ (deliverAll_handles (map FromHost (afterWake env)) woke))
    as (P1 & _).
  destruct (handles_fields _ _ (woken_handles _ _ _ _ E)) as (P2 & _).
  destruct (waitStart_handles format file env st) as [P3 _].
  pose proof (deliverAll_hostOnly _ woke (hostOnly_fromHost (afterWake env))) as R.
  split; [congruence |]. split; [exact R |].
  intros X. destruct (reply_fields _ _ R) as (_ & -> & _).
  pose proof (wake_means_predicate _ _ _ E) as W.
  unfold wakePredicate, shouldExit in W.
  destruct (gotResponse woke); [reflexivity |]. cbn in W.
  pose proof (deliverAll_exit_stays (map FromHost (afterWake env)) woke W). congruence.
Qed.

(** X2. A call returns [false] only in out-of-process mode, and then it has
    added nothing to the caller's array and the slot is empty. *)
Theorem failure_releases_worker_and_adds_nothing
      (format : AudioPluginFormat) (result r : list PluginDescription)
      (file : string) (env : Schedule) (st st' : State) :
  findPluginTypesFor format result file env st = Returned false r st' ->
  scanInProcess st = false /\ r = result /\ superprocess st' = None.
Proof.
  intros E. destruct (scanInProcess st) eqn:M.
  - rewrite (find_inProcess _ _ _ _ _ M) in E. discriminate.
  - split; [reflexivity |].
    destruct (find_returned_inv _ _ _ _ _ _ _ _ M E)
      as [(_ & _ & -> & P) | (_ & woke & w & _ & _ & A)]; [auto |].
    destruct (afterWait_inv _ _ _ _ _ A)
      as [(_ & [=] & _) | [(_ & _ & _ & -> & ->) | (_ & _ & [=] & _)]].
    split; [reflexivity | apply resetSuperprocess_slot].
Qed.

(** X3. An out-of-process call that returns has done one of two things.
    Either it gave its worker up, and then the array is the caller's,
    untouched. Or it kept the worker it used, and then it returned [true]
    without a request to exit or a lost connection, a reply is stored, and
    the array is the caller's followed by the descriptors of that reply. *)
Theorem returned_call_released_or_decoded
      (format : AudioPluginFormat) (result r : list PluginDescription)
      (file : string) (env : Schedule) (st st' : State) (ok : bool) :
  scanInProcess st = false ->
  findPluginTypesFor format result file env st = Returned ok r st' ->
  (superprocess st' = None /\ r = result)
  \/ (superprocess st' = Some (theWorker st)
      /\ ok = true
      /\ exitRequested st' = false
      /\ connectionLost st' = false
      /\ gotResponse st' = true
      /\ r = result ++ storedDescriptors st').
Proof.
  intros M E.
  destruct (find_returned_inv _ _ _ _ _ _ _ _ M E)
    as [(_ & _ & -> & P) | (_ & woke & w & W & -> & A)]; [auto |].
  destruct (at_the_tests _ _ _ _ _ W) as (P & _ & G).
  destruct (afterWait_inv _ _ _ _ _ A)
    as [(_ & _ & -> & ->) | [(_ & _ & _ & -> & ->) | (X & L & -> & -> & ->)]].
  - left. split; [apply resetSuperprocess_slot | reflexivity].
  - left. split; [apply resetSuperprocess_slot | reflexivity].
  - right. auto 10.
Qed.

(** ** Waiting without a wake *)

Lemma wait_modeOnly (intervals : list (list Event)) (st : State) :
  gotResponse st = false ->
  exitRequested st = false ->
  forallb modeOnly intervals = true ->
  exists w, waitForResponse st intervals = (false, w)
            /\ gotResponse w = false /\ exitRequested w = false.
Proof.
  revert st. induction intervals as [| q rest IH]; intros st G X Q;
    cbn [waitForResponse]; unfold wakePredicate, shouldExit; rewrite G, X;
    cbn [orb].
  - exists st. auto.
  - cbn in Q. apply andb_true_iff in Q as [Qq Q].
    destruct (modeOnly_keeps_waiting q st Qq) as (G' & X' & _ & _).
    apply IH; congruence.
Qed.

(** X1. The wait has no time limit of its own. An out-of-process call whose
    request went out, that is not asked to stop, and to which nothing comes
    from the worker once it has taken the lock, is still waiting after any
    number of polling intervals, its worker alive. What the worker sent
    before the call took the lock does not count: it is wiped when the wait
    starts. *)
Theorem call_without_wake_stays_blocked
      (format : AudioPluginFormat) (result : list PluginDescription)
      (file : string) (env : Schedule) (st : State) :
  scanInProcess st = false ->
  sendOk env = true ->
  exitRequested st = false ->
  noExit (beforeLock env) = true ->
  forallb modeOnly (whileWaiting env) = true ->
  exists w,
    findPluginTypesFor format result file env st = Blocked w
    /\ superprocess w = Some (theWorker st)
    /\ gotResponse w = false
    /\ workerLog w
       = workerLog (ensureSuperprocess st)
           ++ [Send (workerId (theWorker st)) (requestBlock format file)].
Proof.
  intros M S X Nb Q. rewrite (find_sent _ _ _ _ _ M S).
  destruct (wait_modeOnly (whileWaiting env) (waitStart format file env st))
    as (w & E & G & _); auto.
  { rewrite waitStart_exit; assumption. }
  rewrite E. exists w. split; [reflexivity |].
  destruct (handles_fields _ _ (woken_handles _ _ _ _ E)) as (P & L & _).
  destruct (waitStart_handles format file env st) as [P' L'].
  repeat split; congruence.
Qed.

(** ** A reply that comes before the lock *)

Lemma deliverAll_message_raised (evs : list Event) (st : State)
      (sp : Superprocess) (mb : MemoryBlock) :
  superprocess st = Some sp ->
  In (FromWorker (MessageFromWorker mb)) evs ->
  gotResponse (deliverAll st evs) = true.
Proof.
  revert st. induction evs as [| e evs IH]; intros st P I; [destruct I |].
  destruct I as [-> | I].
  - change (deliverAll st (FromWorker (MessageFromWorker mb) :: evs))
      with (deliverAll (deliver st (FromWorker (MessageFromWorker mb))) evs).
    apply (proj1 (deliverAll_flags_stay evs _)).
    cbn [deliver]. unfold workerEvent. rewrite P. reflexivity.
  - apply (IH (deliver st e)); [| exact I].
    destruct (handles_fields _ _ (deliver_handles st e)) as (-> & _). exact P.
Qed.

Lemma wait_modeOnly_keeps_reply (intervals : list (list Event)) (st : State) :
  gotResponse st = false ->
  exitRequested st = false ->
  forallb modeOnly intervals = true ->
  reply (snd (waitForResponse st intervals)) = reply st.
Proof.
  revert st. induction intervals as [| q rest IH]; intros st G X Q;
    cbn [waitForResponse]; unfold wakePredicate, shouldExit; rewrite G, X;
    cbn [orb]; [reflexivity |].
  cbn in Q. apply andb_true_iff in Q as [Qq Q].
  destruct (modeOnly_keeps_waiting q st Qq) as (G' & X' & _ & _).
  rewrite IH by congruence.
  apply deliverAll_hostOnly, modeOnly_hostOnly, Qq.
Qed.

(** C3. The code does not return the descriptors of every reply that
    arrives. The reply members are cleared after the send, not before it:
    when the worker's reply is handled after [sendMessageToWorker] has
    returned and before the call has taken the lock, the handler has set
    [gotResponse] and stored the payload, and the call then wipes both. With
    no request to exit and nothing more from the worker, the call does not
    return, however long it waits, although its reply has arrived; its
    worker stays in the slot. *)
Theorem reply_before_the_lock_is_lost
      (format : AudioPluginFormat) (result : list PluginDescription)
      (file : string) (env : Schedule) (st : State) (mb : MemoryBlock) :
  scanInProcess st = false ->
  sendOk env = true ->
  exitRequested st = false ->
  noExit (beforeLock env) = true ->
  In (FromWorker (MessageFromWorker mb)) (beforeLock env) ->
  forallb modeOnly (whileWaiting env) = true ->
  gotResponse
    (deliverAll
       (logOp (Send (workerId (theWorker st)) (requestBlock format file)) false
              (ensureSuperprocess st))
       (beforeLock env))
  = true
  /\ exists w,
       findPluginTypesFor format result file env st = Blocked w
       /\ gotResponse w = false
       /\ pluginDescription w = None
       /\ superprocess w = Some (theWorker st).
Proof.
  intros M S X Nb I Q. split.
  - apply (deliverAll_message_raised _ _ (theWorker st) mb); [| exact I].
    fields. apply ensureSuperprocess_slot.
  - rewrite (find_sent _ _ _ _ _ M S).
    assert (Xs : exitRequested (waitStart format file env st) = false)
      by (rewrite waitStart_exit; assumption).
    destruct (waitStart_reply format file env st) as [Gs Ds].
    destruct (wait_modeOnly (whileWaiting env) _ Gs Xs Q) as (w & E & G & _).
    pose proof (wait_modeOnly_keeps_reply (whileWaiting env) _ Gs Xs Q) as R.
    rewrite E in *. cbn [snd] in R.
    destruct (reply_fields _ _ R) as (D & _ & _).
    destruct (handles_fields _ _ (woken_handles _ _ _ _ E)) as (P & _).
    destruct (waitStart_handles format file env st) as [P' _].
    exists w. repeat split; congruence.
Qed.

(** ** Launching and reusing the worker *)

Lemma launches_app (a b : list WorkerOp) :
  launches (a ++ b) = launches a + launches b.
Proof. unfold launches. rewrite List.filter_app, length_app. reflexivity. Qed.

Lemma resetSuperprocess_launches (st : State) :
  launches (workerLog (resetSuperprocess st)) = launches (workerLog st).
Proof.
  unfold resetSuperprocess. destruct (superprocess st); [| reflexivity].
  fields. rewrite launches_app. cbn. lia.
Qed.

Lemma ensureSuperprocess_launches (st : State) :
  launches (workerLog (ensureSuperprocess st))
  = launches (workerLog st)
    + match superprocess st with None => 1 | Some _ => 0 end.
Proof.
  unfold ensureSuperprocess. destruct (superprocess st); [cbn; lia |].
  fields. rewrite launches_app. reflexivity.
Qed.

Lemma afterWait_launches (result : list PluginDescription) (w : State) :
  launches (workerLog (stateOf (afterWait result w))) = launches (workerLog w).
Proof.
  unfold afterWait.
  destruct (shouldExit w); [apply resetSuperprocess_launches |].
  destruct (connectionLost w); [apply resetSuperprocess_launches |].
  destruct (pluginDescription w); reflexivity.
Qed.

Lemma afterWait_slot (result : list PluginDescription) (w : State) :
  superprocess (stateOf (afterWait result w)) = None
  \/ superprocess (stateOf (afterWait result w)) = superprocess w.
Proof.
  unfold afterWait.
  destruct (shouldExit w); [left; apply resetSuperprocess_slot |].
  destruct (connectionLost w); [left; apply resetSuperprocess_slot |].
  destruct (pluginDescription w); right; reflexivity.
Qed.

(** X4. The worker is launched lazily and reused. A call launches a worker
    exactly when it is made in out-of-process mode with the slot empty, and
    then it launches one; a call that finds a handle in the slot sends to
    that handle, and the slot afterwards holds that same handle or none. *)
Theorem worker_is_launched_only_into_empty_slot
      (format : AudioPluginFormat) (result : list PluginDescription)
      (file : string) (env : Schedule) (st : State) :
  let after := stateOf (findPluginTypesFor format result file env st) in
  launches (workerLog after)
  = launches (workerLog st)
    + (if scanInProcess st then 0
       else match superprocess st with None => 1 | Some _ => 0 end)
  /\ (superprocess after = None
      \/ (scanInProcess st = false /\ superprocess after = Some (theWorker st))).
Proof.
  intros after. subst after. destruct (scanInProcess st) eqn:M.
  - rewrite (find_inProcess _ _ _ _ _ M). cbn [stateOf].
    rewrite resetSuperprocess_launches. split; [lia |].
    left. apply resetSuperprocess_slot.
  - destruct (sendOk env) eqn:S.
    + rewrite (find_sent _ _ _ _ _ M S).
      destruct (waitStart_handles format file env st) as [P L].
      assert (Lw : launches (workerLog (waitStart format file env st))
                   = launches (workerLog st)
                     + match superprocess st with None => 1 | Some _ => 0 end).
      { rewrite L, launches_app, ensureSuperprocess_launches. cbn. lia. }
      destruct (waitForResponse _ _) as [[|] w] eqn:E;
        destruct (handles_fields _ _ (woken_handles _ _ _ _ E)) as (Pw & Lgw & _).
      * destruct (handles_fields _ _
                    (deliverAll_handles (map FromHost (afterWake env)) w))
          as (Pa & La & _).
        split.
        -- rewrite afterWait_launches. congruence.
        -- destruct (afterWait_slot result
                       (deliverAll w (map FromHost (afterWake env)))) as [N | K];
             [left; exact N | right; split; [reflexivity | congruence]].
      * cbn [stateOf]. split; [congruence |].
        right. split; [reflexivity | congruence].
    + rewrite (find_sendFailed _ _ _ _ _ M S). cbn [stateOf].
      rewrite resetSuperprocess_launches. fields.
      rewrite launches_app, ensureSuperprocess_launches. cbn.
      split; [lia | left; apply resetSuperprocess_slot].
Qed.

(** ** A loss reported on an idle worker *)

Lemma wait_flags_stay (intervals : list (list Event)) (st : State) :
  connectionLost st = true ->
  connectionLost (snd (waitForResponse st intervals)) = true.
Proof.
  intros L. rewrite wait_is_waited. apply deliverAll_flags_stay, L.
Qed.

Lemma resetSuperprocess_exit (st : State) :
  exitRequested (resetSuperprocess st) = exitRequested st.
Proof. unfold resetSuperprocess. destruct (superprocess st); reflexivity. Qed.

(** X5. [connectionLost] is cleared only when a handle is made. So when a
    connection loss was reported on the handle in the slot before the call
    (the worker died while idle), an out-of-process call that returns has
    released that handle and added nothing to the array, whatever reply came
    in, and it returns [true] only if the host asked scans to stop. *)
Theorem loss_on_idle_worker_fails_next_call
      (format : AudioPluginFormat) (result r : list PluginDescription)
      (file : string) (env : Schedule) (st st' : State)
      (sp : Superprocess) (ok : bool) :
  scanInProcess st = false ->
  superprocess st = Some sp ->
  connectionLost st = true ->
  findPluginTypesFor format result file env st = Returned ok r st' ->
  r = result
  /\ superprocess st' = None
  /\ (ok = true -> exitRequested st' = true).
Proof.
  intros M P L E.
  destruct (find_returned_inv _ _ _ _ _ _ _ _ M E)
    as [(_ & -> & -> & N) | (_ & woke & w & W & -> & A)].
  { repeat split; [exact N | discriminate]. }
  assert (Lw : connectionLost (deliverAll woke (map FromHost (afterWake env))) = true).
  { apply deliverAll_flags_stay.
    pose proof (wait_flags_stay (whileWaiting env) (waitStart format file env st))
      as F. rewrite W in F. apply F.
    unfold waitStart, clearResponse.
    cbn [connectionLost set_pluginDescription set_gotResponse].
    apply deliverAll_flags_stay. unfold ensureSuperprocess. rewrite P. exact L. }
  destruct (afterWait_inv _ _ _ _ _ A)
    as [(X & _ & -> & ->) | [(_ & _ & -> & -> & ->) | (_ & L' & _)]].
  - repeat split; [apply resetSuperprocess_slot |].
    intros _. rewrite resetSuperprocess_exit. exact X.
  - repeat split; [apply resetSuperprocess_slot | discriminate].
  - congruence.
Qed.

(** ** A call made after the request to exit *)

(** X6. The request to exit is tested only after the send. A call made in
    out-of-process mode when the host has already asked scans to stop still
    makes a worker if the slot is empty and sends it the request; then it
    returns at once, without waiting, whatever the schedule: [true] if the
    send succeeded and [false] if not, the array untouched and the worker
    torn down either way. *)
Theorem call_after_exit_request_sends_then_gives_up
      (format : AudioPluginFormat) (result : list PluginDescription)
      (file : string) (env : Schedule) (st : State) :
  scanInProcess st = false ->
  exitRequested st = true ->
  exists st',
    findPluginTypesFor format result file env st
    = Returned (sendOk env) result st'
    /\ superprocess st' = None
    /\ workerLog st' = sentThenReleased format file st.
Proof.
  intros M X. destruct (sendOk env) eqn:S.
  - rewrite (find_sent _ _ _ _ _ M S).
    assert (Xs : exitRequested (waitStart format file env st) = true).
    { unfold waitStart, clearResponse.
      cbn [exitRequested set_pluginDescription set_gotResponse].
      apply deliverAll_exit_stays. cbn. rewrite ensureSuperprocess_exit. exact X. }
    rewrite (wake_on_exit _ _ Xs).
    rewrite afterWait_exit by (apply deliverAll_exit_stays, Xs).
    eexists; split; [reflexivity |].
    apply (released_after_wait format file env). reflexivity.
  - rewrite (find_sendFailed _ _ _ _ _ M S).
    eexists; split; [reflexivity |]. split; [apply resetSuperprocess_slot |].
    rewrite (resetSuperprocess_log _ (theWorker st))
      by apply ensureSuperprocess_slot.
    unfold sentThenReleased. cbn. rewrite <- app_assoc. reflexivity.
Qed.

(** ** The end of a batch *)

(** X7. After [scanFinished] no worker is left, whatever calls were made
    before and whatever happened on the other threads: the slot is empty and
    the log has no handle alive. A second [scanFinished] changes nothing. *)
Theorem scanFinished_leaves_no_worker
      (settings : option (gmap string Z)) (calls : list Call) :
  let final := scanFinished (runCalls calls (newScanner settings)) in
  superprocess final = None
  /\ liveWorkers (workerLog final) = []
  /\ scanFinished final = final.
Proof.
  intros final.
  assert (K : wellKept final)
    by apply wellKept_reset, wellKept_runCalls, wellKept_newScanner.
  assert (P : superprocess final = None) by apply resetSuperprocess_slot.
  destruct K as [_ T]. unfold tidy, slot in T. rewrite P in T.
  split; [exact P |]. split; [exact T |].
  unfold scanFinished at 1, resetSuperprocess. rewrite P. reflexivity.
Qed.

(** ** Switching the mode through the settings *)

(** X8. The scanner follows the stored mode only through change messages.
    With a settings file: storing [v] under [pluginScanMode] and delivering
    the change message puts the scanner in in-process mode exactly when [v]
    is 0, whatever the mode was; storing the value without the message
    leaves the mode as it was; and a message after a write to another key
    sets the mode from the value already stored. *)
Theorem mode_follows_stored_value_on_change_message
      (st : State) (file : gmap string Z) (v : Z) :
  userSettings st = Some file ->
  scanInProcess
    (deliverAll st [FromHost (SetValue scanModeKey v); FromHost ChangeMessage])
  = (v =? 0)%Z
  /\ scanInProcess (deliverAll st [FromHost (SetValue scanModeKey v)])
     = scanInProcess st
  /\ (forall key : string,
        key <> scanModeKey ->
        scanInProcess
          (deliverAll st [FromHost (SetValue key v); FromHost ChangeMessage])
        = (getIntValue file scanModeKey =? 0)%Z).
Proof.
  intros U. cbn. unfold changeListenerCallback. rewrite U. cbn.
  unfold getIntValue, setValue. split; [| split].
  - rewrite lookup_insert_eq. reflexivity.
  - reflexivity.
  - intros key Ne. rewrite lookup_insert_ne by exact Ne. reflexivity.
Qed.

(** ** The scan-mode box and the scanner *)

(** X17. The names in the scan-mode box say what the scanner does. Each
    entry has the id one above its index; once the box has stored the index
    of an entry and the change message has arrived, the scanner is in
    in-process mode exactly when the entry is named "In-process" and in
    out-of-process mode exactly when it is named "Out-of-process". A new
    scanner is in the mode named by the entry whose index is stored. *)
Theorem mode_box_names_the_scanners_mode
      (st : State) (file : gmap string Z) (index : nat)
      (name : string) (itemId : Z) :
  userSettings st = Some file ->
  validationModeBox !! index = Some (name, itemId) ->
  let st' := deliverAll st [FromHost (validationModeBox_onChange (Z.of_nat index));
                            FromHost ChangeMessage] in
  itemId = (Z.of_nat index + 1)%Z
  /\ (scanInProcess st' = true <-> name = "In-process")
  /\ (scanInProcess st' = false <-> name = "Out-of-process")
  /\ (getIntValue file scanModeKey = Z.of_nat index ->
      (scanInProcess (newScanner (Some file)) = true <-> name = "In-process")).
Proof.
  intros U L st'.
  assert (M : scanInProcess st' = (Z.of_nat index =? 0)%Z).
  { subst st'. cbn. unfold changeListenerCallback. rewrite U. cbn.
    unfold getIntValue, setValue. rewrite lookup_insert_eq. reflexivity. }
  assert (N : getIntValue file scanModeKey = Z.of_nat index ->
              scanInProcess (newScanner (Some file)) = (Z.of_nat index =? 0)%Z).
  { intros E. unfold newScanner, changeListenerCallback. cbn. rewrite E.
    reflexivity. }
  clearbody st'.
  destruct index as [| [| index]]; cbn in L; inversion L; subst; clear L;
    cbn in M; rewrite M.
  - split; [reflexivity |]. split; [split; reflexivity |].
    split; [split; discriminate |].
    intros E. rewrite (N E). split; reflexivity.
  - split; [reflexivity |]. split; [split; discriminate |].
    split; [split; reflexivity |].
    intros E. rewrite (N E). split; discriminate.
Qed.

End ScannerFacts.

(** * Properties of the main window *)

Section HostWindowFacts.
Context `{Framework} `{!HostFramework}.

(** ** Commands *)

(** X9. [perform] returns [true] exactly for the commands [getAllCommands]
    lists, in a desktop build and in a mobile one: the four file commands
    are listed and performed only on the desktop, and every other id,
    [quit] among them, is turned down. *)
Theorem perform_succeeds_exactly_on_listed_commands
      (commandID : CommandID) (numComponents : nat) (w : MainHostWindow) :
  fst (perform commandID numComponents w) = true
  <-> In commandID (getAllCommands []).
Proof.
  unfold getAllCommands, perform.
  destruct commandID as [[] | | n]; destruct mobile; cbn;
    split; intros X; try reflexivity; try discriminate;
    try (repeat (destruct X as [X | X]; try discriminate X); contradiction);
    auto 12.
Qed.

(** ** Menus *)

(** X10. The menu bar and its menus agree: [getMenuForIndex] builds a menu
    with entries exactly for the indices of the names [getMenuBarNames]
    gives, in every build and every state of the window. *)
Theorem every_named_menu_has_entries
      (topLevelMenuIndex : Z) (w : MainHostWindow) :
  fst (getMenuForIndex topLevelMenuIndex w) <> []
  <-> (0 <= topLevelMenuIndex < Z.of_nat (length getMenuBarNames))%Z.
Proof.
  unfold getMenuForIndex, getMenuBarNames. cbn [length].
  destruct (Z.eqb_spec topLevelMenuIndex 0) as [-> | N0].
  { split; [lia |]. intros _. destruct mobile; discriminate. }
  destruct (Z.eqb_spec topLevelMenuIndex 1) as [-> | N1].
  { split; [lia |]. intros _. destruct (addPluginsToMenu [] w). discriminate. }
  destruct (Z.eqb_spec topLevelMenuIndex 2) as [-> | N2].
  { split; [lia |]. intros _. discriminate. }
  destruct (Z.eqb_spec topLevelMenuIndex 3) as [-> | N3].
  { split; [lia |]. intros _. discriminate. }
  cbn. split; [congruence | lia].
Qed.

(** X11. Choosing a sort item and building the options menu compose.
    After [menuItemSelected] with an id from 200 to 204, the sort submenu
    that [getMenuForIndex (2)] shows has an enabled item with that id, and
    it is ticked; it has an enabled item for each of the other ids from 200
    to 204, and it is not ticked; and no item of the submenu is ticked but
    the one with the selected id. With an id from 205 to 209 the ticks stay
    as they were. In both cases the sort method is written to the settings,
    the menus are told to refresh, and nothing is asked of the graph. *)
Theorem selected_sort_item_is_the_ticked_one
      (menuItemID : Z) (pos : Point) (w : MainHostWindow) :
  (200 <= menuItemID < 210)%Z ->
  let w' := menuItemSelected menuItemID pos w in
  In (SubMenu "Plug-in Menu Type" (sortTypeMenu w')) (fst (getMenuForIndex 2 w'))
  /\ ((menuItemID <= 204)%Z ->
      (exists text, In (Item menuItemID text true true) (sortTypeMenu w'))
      /\ (forall itemID, (200 <= itemID <= 204)%Z -> itemID <> menuItemID ->
            exists text, In (Item itemID text true false) (sortTypeMenu w'))
      /\ forall itemID text isEnabled isTicked,
           In (Item itemID text isEnabled isTicked) (sortTypeMenu w') ->
           isTicked = (itemID =? menuItemID)%Z)
  /\ ((205 <= menuItemID)%Z -> sortTypeMenu w' = sortTypeMenu w)
  /\ appSettings w'
     = PropertiesFile_setInt (appSettings w) "pluginSortMethod"
                             (SortValue_toInt (pluginSortMethod w'))
  /\ actions w' = actions w ++ [menuItemsChanged].
Proof.
  intros R w'.
  assert (E : w' = act menuItemsChanged
                 (set_appSettings
                    (PropertiesFile_setInt (appSettings w) "pluginSortMethod"
                       (SortValue_toInt
                          (sortMethodForItem menuItemID (pluginSortMethod w))))
                    (set_pluginSortMethod
                       (sortMethodForItem menuItemID (pluginSortMethod w)) w))).
  { subst w'. unfold menuItemSelected.
    replace (menuItemID =? 250)%Z with false by lia.
    replace (menuItemID <? 200)%Z with false by lia.
    rewrite andb_false_r.
    replace (200 <=? menuItemID)%Z with true by lia.
    replace (menuItemID <? 210)%Z with true by lia.
    reflexivity. }
  clearbody w'. subst w'. refine (conj _ (conj _ (conj _ (conj _ _)))).
  - cbn. auto.
  - intros Le.
    assert (C : (menuItemID = 200 \/ menuItemID = 201 \/ menuItemID = 202
                 \/ menuItemID = 203 \/ menuItemID = 204)%Z) by lia.
    unfold sortTypeMenu. cbn [pluginSortMethod act set_appSettings
                              set_pluginSortMethod].
    unfold sortMethodForItem. clear R Le.
    destruct C as [-> | [-> | [-> | [-> | ->]]]]; cbn;
      (split; [eexists; eauto 10 | split]).
    all: try (intros itemID text isEnabled isTicked I;
              repeat (destruct I as [I | I]; [inversion I; subst; reflexivity |]);
              contradiction).
    all: intros itemID R N;
      assert (K : (itemID = 200 \/ itemID = 201 \/ itemID = 202
                   \/ itemID = 203 \/ itemID = 204)%Z) by lia;
      destruct K as [-> | [-> | [-> | [-> | ->]]]];
      try contradiction; eexists; eauto 10.
  - intros Ge. unfold sortTypeMenu. cbn [pluginSortMethod act set_appSettings
                                         set_pluginSortMethod].
    unfold sortMethodForItem.
    replace (menuItemID =? 200)%Z with false by lia.
    replace (menuItemID =? 201)%Z with false by lia.
    replace (menuItemID =? 202)%Z with false by lia.
    replace (menuItemID =? 203)%Z with false by lia.
    replace (menuItemID =? 204)%Z with false by lia.
    reflexivity.
  - reflexivity.
  - reflexivity.
Qed.

(** X12. An entry of the recent-files menu (ids from 100 to 199) loads a
    file only in a desktop build. There, with a graph, the one thing
    [menuItemSelected] does is ask the graph to save, handing over a callback
    that loads recent file number [menuItemID - 100] exactly when the save
    went through and the window is still there. In a mobile build the same
    id is treated as a plug-in choice and no file is ever loaded. *)
Theorem recent_file_item_loads_only_on_desktop
      (menuItemID : Z) (pos : Point) (w : MainHostWindow) :
  (100 <= menuItemID < 200)%Z ->
  let recentFiles :=
    PropertiesFile_getValue (appSettings w) "recentFilterGraphFiles" in
  let request := loadFromRecentFile recentFiles (menuItemID - 100) in
  let callback := {| parent := safePointerToThis; whenSavedOk := request |} in
  (mobile = false ->
   menuItemSelected menuItemID pos w
   = (if hasGraph w
      then act (graph_saveIfNeededAndUserAgreesAsync callback) w else w)
   /\ forall windowAlive r,
        runSaveCallback callback windowAlive r
        = if windowAlive && match r with savedOk => true | notSaved => false end
          then [request] else [])
  /\ (mobile = true ->
      menuItemSelected menuItemID pos w
      = if (0 <=? KnownPluginList_getIndexChosenByMenu (pluginDescriptions w)
                                                       menuItemID)%Z
        then createPlugin (getChosenType menuItemID w) pos w
        else w).
Proof.
  intros R recentFiles request callback. unfold menuItemSelected.
  replace (menuItemID =? 250)%Z with false by lia.
  replace ((100 <=? menuItemID)%Z) with true by lia.
  replace ((menuItemID <? 200)%Z) with true by lia.
  replace ((200 <=? menuItemID)%Z) with false by lia.
  split; intros ->; cbn [negb andb].
  - split.
    + unfold hasGraphHolder, hasGraph. destruct (graphHolder w); reflexivity.
    + intros [] []; reflexivity.
  - reflexivity.
Qed.

(** ** The plug-in menu *)




(** ** Dropped files *)

Lemma createFound_done (typesFound : list (option PluginDescription))
      (pos : Point) (w : MainHostWindow) :
  hasGraphHolder w = true ->
  actions (createFound typesFound pos w)
  = actions w ++ map (fun desc => graphHolder_createNewPlugin desc pos)
                  (omap id typesFound).
Proof.
  revert w. induction typesFound as [| [desc |] rest IH]; intros w G;
    cbn [createFound omap list_omap id].
  - cbn. symmetry. apply app_nil_r.
  - unfold createPlugin. rewrite G. rewrite IH by exact G.
    cbn. rewrite <- app_assoc. reflexivity.
  - apply IH, G.
Qed.

Lemma firstn_min_length {A : Type} (n : nat) (l : list A) :
  firstn (Nat.min n (length l)) l = firstn n l.
Proof.
  destruct (Nat.le_gt_cases n (length l)) as [Le | Gt].
  - rewrite Nat.min_l by exact Le. reflexivity.
  - rewrite Nat.min_r by lia. rewrite !firstn_all2 by lia. reflexivity.
Qed.

Lemma omap_id_length {A : Type} (l : list (option A)) :
  length (omap id l) <= length l.
Proof.
  induction l as [| [a |] l IH]; cbn [omap list_omap id length]; lia.
Qed.

Lemma filesDropped_scans (files : list string) (x y : Z) (w : MainHostWindow) :
  hasGraphHolder w = true ->
  negb mobile && (length files =? 1)%nat && File_isGraphDocument (firstOf files)
  = false ->
  actions (filesDropped files x y w)
  = actions w
      ++ knownPluginList_scanAndAddDragAndDroppedFiles files
      :: map (fun desc => graphHolder_createNewPlugin desc (getLocalPoint x y))
             (omap id (firstn 5 (scanAndAddDragAndDroppedFiles files))).
Proof.
  intros G C. unfold filesDropped. rewrite G, C. cbv zeta.
  rewrite createFound_done by exact G.
  rewrite firstn_min_length. cbn [actions act]. rewrite <- app_assoc. reflexivity.
Qed.

(** X14. Files dropped that are not one graph document (or any files, in
    a mobile build). On a window that has its graph holder they are
    scanned, and then at most five plug-ins are created, however many types
    the scan found: one for each descriptor that is not null among the first
    five found, in the order found, all at the point of the drop. On a
    window without a graph holder nothing is scanned and nothing is
    created. *)
Theorem dropped_files_create_at_most_five_plugins
      (files : list string) (x y : Z) (w : MainHostWindow) :
  mobile = true \/ length files <> 1
  \/ File_isGraphDocument (firstOf files) = false ->
  let typesFound := scanAndAddDragAndDroppedFiles files in
  let created := omap id (firstn 5 typesFound) in
  actions (filesDropped files x y w)
  = actions w
      ++ (if hasGraphHolder w
          then knownPluginList_scanAndAddDragAndDroppedFiles files
               :: map (fun desc =>
                         graphHolder_createNewPlugin desc (getLocalPoint x y))
                      created
          else [])
  /\ length created <= 5.
Proof.
  intros C typesFound created. split.
  - destruct (hasGraphHolder w) eqn:G.
    + apply filesDropped_scans; [exact G |].
      destruct C as [-> | [N | ->]]; [reflexivity | | apply andb_false_r].
      apply Nat.eqb_neq in N. rewrite N, andb_false_r. reflexivity.
    + unfold filesDropped. rewrite G, app_nil_r. reflexivity.
  - subst created. etransitivity; [apply omap_id_length |].
    rewrite length_firstn. lia.
Qed.

(** X15. A graph document dropped on the window is never loaded. The
    callback [filesDropped] hands to the graph captures a [SafePointer] that
    was never pointed at the window, so it returns at once, whatever the
    result of the save and whether or not the window is still there; that
    request to save is all the drop does. No call of [filesDropped] hands
    over a callback that does anything. *)
Theorem dropped_graph_document_is_never_loaded
      (files : list string) (x y : Z) (w : MainHostWindow) :
  exists new,
    actions (filesDropped files x y w) = actions w ++ new
    /\ (forall callback,
          In (graph_saveIfNeededAndUserAgreesAsync callback) new ->
          forall windowAlive r, runSaveCallback callback windowAlive r = [])
    /\ (mobile = false -> length files = 1 ->
        File_isGraphDocument (firstOf files) = true -> hasGraph w = true ->
        new = [graph_saveIfNeededAndUserAgreesAsync
                 {| parent := nullSafePointer;
                    whenSavedOk := loadFrom (firstOf files) |}]).
Proof.
  destruct (hasGraphHolder w) eqn:G.
  2:{ exists []. unfold filesDropped. rewrite G, app_nil_r.
      split; [reflexivity |]. split; [intros ? [] |].
      intros _ _ _ Hg. unfold hasGraph, hasGraphHolder in *.
      destruct (graphHolder w); discriminate. }
  destruct (negb mobile && (length files =? 1)%nat
            && File_isGraphDocument (firstOf files)) eqn:C.
  - apply andb_true_iff in C as [C C3]. apply andb_true_iff in C as [C1 C2].
    destruct (hasGraph w) eqn:Hg.
    + eexists. unfold filesDropped. rewrite G, C1, C2, C3, Hg. cbn [andb actions act].
      split; [reflexivity |]. split; [| reflexivity].
      intros callback [E | []]. inversion E; subst. reflexivity.
    + exists []. unfold filesDropped. rewrite G, C1, C2, C3, Hg, app_nil_r.
      split; [reflexivity |]. split; [intros ? [] | discriminate].
  - eexists. split; [apply (filesDropped_scans _ _ _ _ G C) |].
    split.
    + intros callback [E | I]; [discriminate E |].
      apply in_map_iff in I as (desc & E & _). discriminate E.
    + intros M L D _. rewrite M, L, D in C. discriminate C.
Qed.

(** ** Quitting *)


End HostWindowFacts.

(** * The theorems at work *)

Section Examples.
#[local] Existing Instance demoFramework.

Lemma shutdown_while_waiting_example :
  exists st',
    findPluginTypesFor demoFormat [] demoFile exitSchedule outOfProcessScanner
    = Returned true [] st'
    /\ superprocess st' = None
    /\ workerLog st' = sentThenReleased demoFormat demoFile outOfProcessScanner.
Proof.
  apply (shutdown_while_waiting_is_empty_success
           demoFormat [] demoFile exitSchedule outOfProcessScanner
           [[]] [FromHost ExitRequested] []); try reflexivity.
  left. reflexivity.
Defined.

Lemma worker_failure_example :
  exists st',
    findPluginTypesFor demoFormat [] demoFile lossSchedule outOfProcessScanner
    = Returned false [] st'
    /\ superprocess st' = None
    /\ workerLog st' = sentThenReleased demoFormat demoFile outOfProcessScanner.
Proof.
  apply (worker_failure_releases_and_fails
           demoFormat [] demoFile lossSchedule outOfProcessScanner
           [[]] [FromWorker ConnectionLost] []); [reflexivity |].
  right. repeat split; try reflexivity. left. reflexivity.
Defined.

(** The connection is lost while the call waits and the call returns [true]:
    the host asked scans to stop in the same stretch. *)
Lemma connection_loss_during_shutdown_returns_true :
  scanInProcess outOfProcessScanner = false
  /\ sendOk lossAndExitSchedule = true
  /\ whileWaiting lossAndExitSchedule
     = [[]] ++ [FromWorker ConnectionLost; FromHost ExitRequested] :: []
  /\ In (FromWorker ConnectionLost)
        [FromWorker ConnectionLost; FromHost ExitRequested]
  /\ (exists st',
        findPluginTypesFor demoFormat [] demoFile lossAndExitSchedule
                           outOfProcessScanner
        = Returned true [] st'
        /\ connectionLost st' = true)
  /\ ~ (exists st',
          findPluginTypesFor demoFormat [] demoFile lossAndExitSchedule
                             outOfProcessScanner
          = Returned false [] st').
Proof.
  split; [reflexivity |]. split; [reflexivity |]. split; [reflexivity |].
  split; [left; reflexivity |]. split.
  - eexists. split; reflexivity.
  - intros [st' E]. vm_compute in E. discriminate E.
Qed.

Lemma reply_is_decoded_example :
  exists st',
    findPluginTypesFor demoFormat [] demoFile replySchedule outOfProcessScanner
    = Returned true ["0"; "2"] st'
    /\ superprocess st' = Some {| workerId := 0 |}.
Proof.
  destruct (reply_is_decoded_and_worker_kept
              demoFormat [] demoFile replySchedule outOfProcessScanner
              [[]] [] [] demoReply [])
    as [(st' & E & P & _) _]; try reflexivity.
  - left. reflexivity.
  - exists st'. split; [exact E | exact P].
Defined.

Lemma in_process_scan_example :
  exists st',
    findPluginTypesFor demoFormat [] demoFile replySchedule defaultScanner
    = Returned true [demoFile] st'
    /\ superprocess st' = None
    /\ workerLog st' = []
    /\ launched st' = 0
    /\ reply st' = reply defaultScanner.
Proof.
  apply (in_process_scan_bypasses_worker
           demoFormat [] demoFile replySchedule defaultScanner).
  reflexivity.
Defined.

(** The mode is switched to in-process while a call waits for its reply: the
    call still returns the worker's two descriptors and keeps its worker, and
    the next call enumerates in-process and gives the worker up. *)
Example mode_flip_example :
  exists st',
    findPluginTypesFor demoFormat [] demoFile modeFlipSchedule outOfProcessScanner
    = Returned true ["0"; "2"] st'
    /\ scanInProcess st' = true
    /\ superprocess st' = Some {| workerId := 0 |}
    /\ exists st'',
         findPluginTypesFor demoFormat [] demoFile replySchedule st'
         = Returned true [demoFile] st''
         /\ superprocess st'' = None.
Proof.
  set (first := findPluginTypesFor demoFormat [] demoFile modeFlipSchedule
                                   outOfProcessScanner).
  exists (stateOf first). repeat split; try (vm_compute; reflexivity).
  exists (stateOf (findPluginTypesFor demoFormat [] demoFile replySchedule
                                      (stateOf first))).
  split; vm_compute; reflexivity.
Qed.

(** No worker can be reached: the send fails, the call fails and no handle
    is left. *)
Example send_failure_example :
  exists st',
    findPluginTypesFor demoFormat [] demoFile
      {| sendOk := false; beforeLock := []; whileWaiting := []; afterWake := [] |}
      outOfProcessScanner
    = Returned false [] st'
    /\ superprocess st' = None
    /\ liveWorkers (workerLog st') = [].
Proof. eexists. split; [reflexivity |]. split; reflexivity. Qed.

Lemma exit_takes_precedence_example :
  let w := deliverAll
             (waitStart demoFormat demoFile lossAndExitSchedule outOfProcessScanner)
             [FromWorker ConnectionLost; FromHost ExitRequested] in
  findPluginTypesFor demoFormat [] demoFile lossAndExitSchedule outOfProcessScanner
  = Returned true [] (resetSuperprocess w)
  /\ superprocess (resetSuperprocess w) = None.
Proof.
  apply (exit_takes_precedence_over_connection_loss
           demoFormat [] demoFile lossAndExitSchedule outOfProcessScanner);
    reflexivity.
Defined.

Lemma reply_before_the_lock_example :
  gotResponse
    (deliverAll
       (logOp (Send (workerId (theWorker outOfProcessScanner))
                    (requestBlock demoFormat demoFile)) false
              (ensureSuperprocess outOfProcessScanner))
       (beforeLock earlyReplySchedule))
  = true
  /\ exists w,
       findPluginTypesFor demoFormat [] demoFile earlyReplySchedule
                          outOfProcessScanner
       = Blocked w
       /\ gotResponse w = false
       /\ pluginDescription w = None
       /\ superprocess w = Some (theWorker outOfProcessScanner).
Proof.
  apply (reply_before_the_lock_is_lost
           demoFormat [] demoFile earlyReplySchedule outOfProcessScanner
           demoReply); try reflexivity.
  left. reflexivity.
Defined.

Lemma call_without_wake_example :
  exists w,
    findPluginTypesFor demoFormat [] demoFile earlyReplySchedule outOfProcessScanner
    = Blocked w
    /\ superprocess w = Some (theWorker outOfProcessScanner)
    /\ gotResponse w = false
    /\ workerLog w
       = workerLog (ensureSuperprocess outOfProcessScanner)
           ++ [Send (workerId (theWorker outOfProcessScanner))
                    (requestBlock demoFormat demoFile)].
Proof.
  apply (call_without_wake_stays_blocked
           demoFormat [] demoFile earlyReplySchedule outOfProcessScanner);
    reflexivity.
Defined.

Lemma failure_releases_worker_example :
  scanInProcess outOfProcessScanner = false
  /\ @nil string = []
  /\ superprocess
       (stateOf (findPluginTypesFor demoFormat [] demoFile lossSchedule
                                    outOfProcessScanner))
     = None.
Proof.
  apply (failure_releases_worker_and_adds_nothing
           demoFormat [] [] demoFile lossSchedule outOfProcessScanner).
  vm_compute. reflexivity.
Defined.

Lemma returned_call_example :
  let st' := stateOf (findPluginTypesFor demoFormat [] demoFile replySchedule
                                         outOfProcessScanner) in
  (superprocess st' = None /\ ["0"; "2"] = @nil string)
  \/ (superprocess st' = Some (theWorker outOfProcessScanner)
      /\ true = true
      /\ exitRequested st' = false
      /\ connectionLost st' = false
      /\ gotResponse st' = true
      /\ ["0"; "2"] = [] ++ storedDescriptors st').
Proof.
  apply (returned_call_released_or_decoded
           demoFormat [] ["0"; "2"] demoFile replySchedule outOfProcessScanner);
    vm_compute; reflexivity.
Defined.

Lemma loss_on_idle_worker_example :
  let st' := stateOf (findPluginTypesFor demoFormat [] demoFile replySchedule
                                         idleLossScanner) in
  @nil string = []
  /\ superprocess st' = None
  /\ (false = true -> exitRequested st' = true).
Proof.
  apply (loss_on_idle_worker_fails_next_call
           demoFormat [] [] demoFile replySchedule idleLossScanner _
           {| workerId := 0 |} false);
    vm_compute; reflexivity.
Defined.

Lemma call_after_exit_request_example :
  exists st',
    findPluginTypesFor demoFormat [] demoFile replySchedule stoppingScanner
    = Returned true [] st'
    /\ superprocess st' = None
    /\ workerLog st' = sentThenReleased demoFormat demoFile stoppingScanner.
Proof.
  apply (call_after_exit_request_sends_then_gives_up
           demoFormat [] demoFile replySchedule stoppingScanner);
    reflexivity.
Defined.

Lemma mode_follows_stored_value_example :
  scanInProcess
    (deliverAll outOfProcessScanner
       [FromHost (SetValue scanModeKey 0%Z); FromHost ChangeMessage])
  = (0 =? 0)%Z
  /\ scanInProcess
       (deliverAll outOfProcessScanner [FromHost (SetValue scanModeKey 0%Z)])
     = scanInProcess outOfProcessScanner
  /\ (forall key : string,
        key <> scanModeKey ->
        scanInProcess
          (deliverAll outOfProcessScanner
             [FromHost (SetValue key 0%Z); FromHost ChangeMessage])
        = (getIntValue outOfProcessSettings scanModeKey =? 0)%Z).
Proof.
  apply (mode_follows_stored_value_on_change_message
           outOfProcessScanner outOfProcessSettings 0%Z).
  reflexivity.
Defined.

Lemma mode_box_example :
  let st' := deliverAll outOfProcessScanner
               [FromHost (validationModeBox_onChange (Z.of_nat 0));
                FromHost ChangeMessage] in
  1%Z = (Z.of_nat 0 + 1)%Z
  /\ (scanInProcess st' = true <-> "In-process" = "In-process")
  /\ (scanInProcess st' = false <-> "In-process" = "Out-of-process")
  /\ (getIntValue outOfProcessSettings scanModeKey = Z.of_nat 0 ->
      (scanInProcess (newScanner (Some outOfProcessSettings)) = true
       <-> "In-process" = "In-process")).
Proof.
  apply (mode_box_names_the_scanners_mode
           outOfProcessScanner outOfProcessSettings 0 "In-process" 1%Z);
    reflexivity.
Defined.

End Examples.

Section HostWindowExamples.
#[local] Existing Instance demoFramework.
#[local] Existing Instance demoHostFramework.

Lemma selected_sort_item_example :
  let w' := menuItemSelected 202 (0, 0)%Z demoWindow in
  In (SubMenu "Plug-in Menu Type" (sortTypeMenu w')) (fst (getMenuForIndex 2 w'))
  /\ ((202 <= 204)%Z ->
      (exists text, In (Item 202 text true true) (sortTypeMenu w'))
      /\ (forall itemID, (200 <= itemID <= 204)%Z -> itemID <> 202%Z ->
            exists text, In (Item itemID text true false) (sortTypeMenu w'))
      /\ forall itemID text isEnabled isTicked,
           In (Item itemID text isEnabled isTicked) (sortTypeMenu w') ->
           isTicked = (itemID =? 202)%Z)
  /\ ((205 <= 202)%Z -> sortTypeMenu w' = sortTypeMenu demoWindow)
  /\ appSettings w'
     = PropertiesFile_setInt (appSettings demoWindow) "pluginSortMethod"
                             (SortValue_toInt (pluginSortMethod w'))
  /\ actions w' = actions demoWindow ++ [menuItemsChanged].
Proof.
  apply (selected_sort_item_is_the_ticked_one 202 (0, 0)%Z demoWindow). lia.
Defined.

Lemma recent_file_item_example :
  menuItemSelected 103 (0, 0)%Z demoWindow
  = act (graph_saveIfNeededAndUserAgreesAsync
           {| parent := safePointerToThis;
              whenSavedOk := loadFromRecentFile EmptyString 3 |})
        demoWindow.
Proof.
  destruct (recent_file_item_loads_only_on_desktop 103 (0, 0)%Z demoWindow)
    as [D _]; [lia |].
  destruct (D eq_refl) as [E _]. exact E.
Defined.


Lemma dropped_files_example :
  let files := ["a"; "b"; "c"; "d"; "e"; "f"; "g"] in
  actions (filesDropped files 10 20 demoWindow)
  = [knownPluginList_scanAndAddDragAndDroppedFiles files;
     graphHolder_createNewPlugin "a" (10, 20)%Z;
     graphHolder_createNewPlugin "b" (10, 20)%Z;
     graphHolder_createNewPlugin "c" (10, 20)%Z;
     graphHolder_createNewPlugin "d" (10, 20)%Z;
     graphHolder_createNewPlugin "e" (10, 20)%Z].
Proof.
  intros files.
  destruct (dropped_files_create_at_most_five_plugins files 10 20 demoWindow)
    as [E _]; [right; left; cbn; lia |].
  exact E.
Defined.


End HostWindowExamples.
